(** * OrpheusDL front end: request resolution and interactive selection

    Shallow embedding of [orpheus.py]: the selection validator and the
    selection backend of [interactive_selection], the candidate formatter
    (rows shown by fzf or printed by the fallback prompt), the search modes
    of [main], and the URL router with the per-module batch it builds. *)

From Stdlib Require Import ZArith Lia Ascii String DecimalString DecimalNat.
From stdpp Require Import base list gmap strings.

Local Open Scope Z_scope.

(** ** Outcomes of the front end

    [Ok] is normal return, [Raised msg] is [raise Exception(msg)], and
    [Exited msg] is [print(msg)] (nothing printed for [""]) followed by the
    builtin [exit()], which raises [SystemExit] with status 0. *)
Inductive outcome (A : Type) : Type :=
| Ok (a : A)
| Raised (msg : string)
| Exited (msg : string).
Arguments Ok {A} a.
Arguments Raised {A} msg.
Arguments Exited {A} msg.

Definition is_raised {A} (o : outcome A) : bool :=
  match o with Raised _ => true | _ => false end.

(** ** Python string primitives on the selection text

    The selection text (fzf output or the [input()] line) is modelled as an
    ASCII [string]. *)
Module Py.

(** [str.lower] on one ASCII character. *)
Definition lower_char (c : ascii) : ascii :=
  let n := nat_of_ascii c in
  if (65 <=? n)%nat && (n <=? 90)%nat then ascii_of_nat (n + 32) else c.

Fixpoint lower (s : string) : string :=
  match s with
  | EmptyString => EmptyString
  | String c s' => String (lower_char c) (lower s')
  end.

Definition is_digit_char (c : ascii) : bool :=
  let n := nat_of_ascii c in (48 <=? n)%nat && (n <=? 57)%nat.

Fixpoint all_digits (s : string) : bool :=
  match s with
  | EmptyString => true
  | String c s' => is_digit_char c && all_digits s'
  end.

(** [str.isdigit]: non-empty and every character a digit. *)
Definition isdigit (s : string) : bool :=
  match s with EmptyString => false | _ => all_digits s end.

(** [int(s)] on a string of decimal digits, read left to right. *)
Fixpoint int_acc (s : string) (acc : nat) : nat :=
  match s with
  | EmptyString => acc
  | String c s' => int_acc s' (10 * acc + (nat_of_ascii c - 48))
  end.

Definition int (s : string) : nat := int_acc s 0.

(** [str(n)] for a natural number. *)
Definition str_nat (n : nat) : string :=
  NilEmpty.string_of_uint (Nat.to_uint n).

End Py.

(** ** Selection Validator: step 5 of [interactive_selection] *)
Definition quit_aliases : list string := ["e"; "q"; "x"; "exit"; "quit"].

Definition is_quit (selection_input : string) : bool :=
  existsb (String.eqb (Py.lower selection_input)) quit_aliases.

(** [len_items] is [len(items)]; the result is the 0-based selection. *)
Definition process_result (selection_input : string) (len_items : nat) : outcome Z :=
  if is_quit selection_input then Exited ""
  else if negb (Py.isdigit selection_input) then Raised "Input a number"
  else
    let selection := Z.of_nat (Py.int selection_input) - 1 in
    if (selection <? 0) || (selection >=? Z.of_nat len_items)
    then Raised "Invalid selection"
    else Ok selection.

(** ** Display text

    Rows and headers contain the ellipsis U+2026, so display text is a
    Python [str] as its sequence of Unicode code points; [len] is [length]
    and slicing [s[:k]] is [take k s]. *)
Module Txt.

Definition lit (s : string) : list N := map N_of_ascii (list_ascii_of_string s).

Definition tab : N := 9.
Definition pipe : N := 124.
Definition space : N := 32.
Definition colon : N := 58.
Definition ellipsis : N := 8230.

(** [f"{s:<w}"]: pad on the right with spaces, never truncate. *)
Definition ljust (w : nat) (s : list N) : list N :=
  s ++ replicate (w - length s) space.

(** [sub in s] for strings. *)
Fixpoint contains (sub s : list N) : bool :=
  bool_decide (take (length sub) s = sub) ||
  match s with [] => false | _ :: s' => contains sub s' end.

(** [s.split(c)] for a one-character separator. *)
Fixpoint split_on (c : N) (s : list N) : list (list N) :=
  match s with
  | [] => [[]]
  | x :: s' =>
      let r := split_on c s' in
      if N.eqb x c then [] :: r
      else match r with y :: r' => (x :: y) :: r' | [] => [[x]] end
  end.

(** [sep.join(l)]. *)
Fixpoint join (sep : list N) (l : list (list N)) : list N :=
  match l with
  | [] => []
  | [x] => x
  | x :: r => x ++ sep ++ join sep r
  end.

Definition str_nat (n : nat) : list N := lit (Py.str_nat n).
Definition str_Z (z : Z) : list N := lit (NilEmpty.string_of_int (Z.to_int z)).

End Txt.

Import Txt.

(** ** Data model ([orpheus.core]) *)
Inductive DownloadTypeEnum := track | playlist | artist | album.

Definition type_name (t : DownloadTypeEnum) : string :=
  match t with
  | track => "track" | playlist => "playlist" | artist => "artist" | album => "album"
  end.

(** [SearchResult.artists]: one string, a list of strings, or [None]. *)
Inductive artists_val :=
| ArtistsStr (s : list N)
| ArtistsList (l : list (list N))
| ArtistsNone.

Definition kwargs := list (string * string).

Record SearchResult := mkSearchResult {
  result_id : string;
  name : list N;
  artists : artists_val;
  year : option Z;
  duration : option Z;
  explicit : bool;
  additional : list (list N);
  extra_kwargs : kwargs
}.

Record MediaIdentification := mkMediaIdentification {
  media_type : DownloadTypeEnum;
  media_id : string;
  mi_extra_kwargs : option kwargs
}.

(** Truthiness of an optional [int]: [None] and [0] are false. *)
Definition truthy_int (o : option Z) : bool :=
  match o with Some v => negb (v =? 0) | None => false end.

(** ** Candidate Formatter: steps 1 and 2 of [interactive_selection] *)
Inductive layout_mode := simple | detailed.

Definition configuration (query_type : DownloadTypeEnum) : layout_mode * string :=
  match query_type with
  | artist => (simple, "ARTIST")
  | album => (detailed, "ALBUM")
  | playlist => (detailed, "PLAYLIST")
  | track => (detailed, "TRACK")
  end.

Definition header (query_type : DownloadTypeEnum) : list N :=
  let '(layout, main_label) := configuration query_type in
  match layout with
  | detailed =>
      ljust 3 (lit "#") ++ lit " " ++ ljust 40 (lit main_label) ++ lit " " ++
      ljust 6 (lit "YEAR") ++ lit " " ++ ljust 8 (lit "LENGTH") ++ lit " " ++
      ljust 3 (lit "[E]") ++ lit " " ++ lit "QUAL"
  | simple => ljust 3 (lit "#") ++ lit " " ++ lit main_label
  end.

Section Formatter.

(** [orpheus.music_downloader.beauty_format_seconds], used as it is. *)
Variable beauty_format_seconds : Z -> list N.

Definition trunc_name (item : SearchResult) : list N :=
  if (38 <? length (name item))%nat then take 37 (name item) ++ [ellipsis]
  else name item.

Definition year_str (item : SearchResult) : list N :=
  if truthy_int (year item) then str_Z (default 0 (year item)) else lit "----".

Definition full_dur (item : SearchResult) : list N :=
  if truthy_int (duration item) then beauty_format_seconds (default 0 (duration item))
  else lit "--:--".

Definition short_dur (item : SearchResult) : list N :=
  let fd := full_dur item in
  if contains (lit "h") fd then
    match split_on colon fd with
    | p0 :: p1 :: _ => p0 ++ [colon] ++ p1
    | _ => fd
    end
  else fd.

Definition expl (item : SearchResult) : list N :=
  if explicit item then lit "E" else lit " ".

Definition full_qual (item : SearchResult) : list N :=
  match additional item with q :: _ => q | [] => lit "----" end.

Definition short_qual (item : SearchResult) : list N :=
  let fq := full_qual item in
  if contains (lit "Dolby Atmos") fq then lit "DA"
  else if contains (lit "Master") fq then lit "Mast"
  else if contains (lit "HiFi") fq then lit "HiFi"
  else take 6 fq.

Definition visible (layout : layout_mode) (index : nat) (item : SearchResult) : list N :=
  match layout with
  | detailed =>
      ljust 4 (str_nat index ++ lit ".") ++ lit " " ++ ljust 40 (trunc_name item) ++
      lit " " ++ ljust 6 (year_str item) ++ lit " " ++ ljust 8 (short_dur item) ++
      lit " " ++ ljust 3 (expl item) ++ lit " " ++ short_qual item
  | simple => ljust 4 (str_nat index ++ lit ".") ++ lit " " ++ name item
  end.

Definition full_artist (item : SearchResult) : list N :=
  match artists item with
  | ArtistsList l => join (lit ", ") l
  | ArtistsStr s => s
  | ArtistsNone => lit "None"
  end.

Definition is_expl_str (item : SearchResult) : list N :=
  if explicit item then lit "1" else lit "0".
Definition h_year (item : SearchResult) : list N :=
  if truthy_int (year item) then year_str item else [].
Definition h_dur (item : SearchResult) : list N :=
  if truthy_int (duration item) then full_dur item else [].
Definition h_qual (item : SearchResult) : list N :=
  match additional item with [] => [] | _ => full_qual item end.

(** Hidden format: Name|Artist|Year|FullDur|FullQual|IsExplicit *)
Definition hidden (item : SearchResult) : list N :=
  name item ++ [pipe] ++ full_artist item ++ [pipe] ++ h_year item ++ [pipe] ++
  h_dur item ++ [pipe] ++ h_qual item ++ [pipe] ++ is_expl_str item.

Definition choice (layout : layout_mode) (index : nat) (item : SearchResult) : list N :=
  visible layout index item ++ [tab] ++ hidden item.

(** The [for index, item in enumerate(items, start=1)] loop. *)
Fixpoint build_choices (layout : layout_mode) (index : nat) (items : list SearchResult)
  : list (list N) :=
  match items with
  | [] => []
  | item :: rest => choice layout index item :: build_choices layout (S index) rest
  end.

Definition choices (query_type : DownloadTypeEnum) (items : list SearchResult) : list (list N) :=
  build_choices (fst (configuration query_type)) 1 items.

End Formatter.

(** ** Selection Backend Adapter: steps 3 and 4 of [interactive_selection] *)

(** Observable effects of the front end, in the order they happen. *)
Inductive event :=
| EvSearch (query_type : DownloadTypeEnum) (query : string) (limit : nat)
    (** [module.search(query_type, query, limit=limit)] *)
| EvFzf        (** [subprocess.Popen(['fzf', ...]).communicate(...)] *)
| EvPrompt.    (** the fallback: header and rows printed, [input('Selection: ')] *)

(** The terminal the selection runs on. [fzf_communicate] returns the
    [returncode] and the decoded [stdout] of fzf, or [None] when launching or
    talking to it raised. *)
Record terminal := mkTerminal {
  fzf_found : bool;
  fzf_communicate : list N -> list (list N) -> option (Z * string);
  input_line : string
}.

Definition is_space (c : ascii) : bool :=
  let n := nat_of_ascii c in ((9 <=? n) && (n <=? 13))%nat || (n =? 32)%nat.

Fixpoint lstrip (s : string) : string :=
  match s with
  | String c s' => if is_space c then lstrip s' else s
  | EmptyString => EmptyString
  end.

(** [str.strip()] on ASCII text. *)
Definition strip (s : string) : string :=
  string_of_list_ascii (rev (list_ascii_of_string
    (lstrip (string_of_list_ascii (rev (list_ascii_of_string (lstrip s))))))).

(** [s.split('.')[0]]. *)
Fixpoint before_dot (s : string) : string :=
  match s with
  | String c s' => if Ascii.eqb c "." then EmptyString else String c (before_dot s')
  | EmptyString => EmptyString
  end.

(** [selection_input] after the fzf attempt ([None] is Python's [None]). *)
Definition fzf_selection (term : terminal) (hdr : list N) (rows : list (list N)) : option string :=
  match fzf_communicate term hdr rows with
  | Some (returncode, stdout) =>
      if (returncode =? 0) && negb (String.eqb stdout "") then
        let result := strip stdout in
        if String.eqb result "" then None else Some (before_dot result)
      else None
  | None => None
  end.

Section Selection.

Variable beauty_format_seconds : Z -> list N.

Definition interactive_selection (term : terminal) (items : list SearchResult)
    (query_type : DownloadTypeEnum) : list event * outcome Z :=
  let hdr := header query_type in
  let rows := choices beauty_format_seconds query_type items in
  let '(ev_fzf, selection_input) :=
    if fzf_found term then ([EvFzf], fzf_selection term hdr rows) else ([], None) in
  let '(ev_prompt, selection_input) :=
    match selection_input with
    | Some s => if String.eqb s "" then ([EvPrompt], input_line term) else ([], s)
    | None => ([EvPrompt], input_line term)
    end in
  (ev_fzf ++ ev_prompt, process_result selection_input (length items)).

End Selection.

(** ** Search modes of [main] *)

(** [items[i]] on a Python list; [None] is an [IndexError]. *)
Definition py_index {A} (l : list A) (i : Z) : option A :=
  if i <? 0 then
    if Z.of_nat (length l) + i <? 0 then None else l !! Z.to_nat (Z.of_nat (length l) + i)
  else l !! Z.to_nat i.

(** [DownloadRequestBatch]: the dict [media_to_download]. *)
Abbreviation batch := (gmap string (list MediaIdentification)).

Section Search.

Variable beauty_format_seconds : Z -> list N.
(** [orpheus.settings['global']['general']['search_limit']] *)
Variable search_limit : nat.
(** [orpheus.load_module(modulename).search] *)
Variable module_search : DownloadTypeEnum -> string -> nat -> list SearchResult.

(** The branch of [search]/[luckysearch] taken once [modulename] is a known
    module and [query_type] a valid type. *)
Definition search_mode (term : terminal) (lucky_mode : bool) (modulename query : string)
    (query_type : DownloadTypeEnum) : list event * outcome batch :=
  let limit := if lucky_mode then 1%nat else search_limit in
  let items := module_search query_type query limit in
  let ev := [EvSearch query_type query limit] in
  if (length items =? 0)%nat then
    (ev, Raised ("No search results for " +:+ type_name query_type +:+ ": " +:+ query))
  else
    let '(ev_sel, sel) :=
      if lucky_mode then ([], Ok 0)
      else interactive_selection beauty_format_seconds term items query_type in
    (ev ++ ev_sel,
     match sel with
     | Ok selection =>
         match py_index items selection with
         | Some selected_item =>
             Ok {[ modulename := [mkMediaIdentification query_type
                                    (result_id selected_item)
                                    (Some (extra_kwargs selected_item))] ]}
         | None => Raised "list index out of range"
         end
     | Raised m => Raised m
     | Exited m => Exited m
     end).

End Search.

(** ** URL Router and Request Aggregator: the links branch of [main] *)

Inductive ManualEnum := manual | auto.

(** The [ModuleInformation] fields the router reads. *)
Record ModuleSettings := mkModuleSettings {
  url_decoding : ManualEnum;
  url_constants : option (list (string * DownloadTypeEnum))
}.

(** What [urllib.parse.urlparse] returns, as far as the router reads it. *)
Record ParseResult := mkParseResult { netloc : string; path : string }.

Definition dq : string := String (ascii_of_nat 34) EmptyString.

(** [s.split(c)] on ASCII text. *)
Fixpoint split_str (c : ascii) (s : string) : list string :=
  match s with
  | EmptyString => [EmptyString]
  | String x s' =>
      let r := split_str c s' in
      if Ascii.eqb x c then EmptyString :: r
      else match r with y :: r' => String x y :: r' | [] => [String x EmptyString] end
  end.

Definition default_url_constants : list (string * DownloadTypeEnum) :=
  [("track", track); ("album", album); ("playlist", playlist); ("artist", artist)].

(** [media_to_download[m].append(x)] ([m] is a key at this point). *)
Definition append_media (m : string) (x : MediaIdentification) (media : batch) : batch :=
  <[ m := default [] (media !! m) ++ [x] ]> media.

Section Router.

(** The [re] module: [re_findall pattern s] is [re.findall(pattern, s)]. *)
Context {regex : Type}.
Variable re_findall : regex -> string -> list string.
Variable urlparse : string -> ParseResult.
(** [orpheus.module_netloc_constants], in dict order. *)
Variable module_netloc_constants : list (regex * string).
(** [orpheus.module_settings]. *)
Variable module_settings : string -> ModuleSettings.
(** [orpheus.load_module(m).custom_url_parse(link)]. *)
Variable custom_url_parse : string -> string -> MediaIdentification.

(** The [for i in orpheus.module_netloc_constants] loop. *)
Definition find_service (host : string) : option string :=
  fold_left (fun service_name '(i, m) =>
               match re_findall i host with [] => service_name | _ => Some m end)
            module_netloc_constants None.

(** Lines 309-332, once [service_name] is found. *)
Definition route_in_module (media : batch) (service_name link : string)
    (components : list string) : outcome batch :=
  match url_decoding (module_settings service_name) with
  | manual => Ok (append_media service_name (custom_url_parse service_name link) media)
  | auto =>
      if match components with [] => true | _ => (length components <=? 2)%nat end then
        Exited (String "009" EmptyString +:+ "Invalid URL: " +:+ dq +:+ link +:+ dq)
      else
        let url_constants :=
          match url_constants (module_settings service_name) with
          | None | Some [] => default_url_constants
          | Some uc => uc
          end in
        let type_matches :=
          map snd (List.filter (fun '(url_check, _) => bool_decide (url_check ∈ components))
                          url_constants) in
        match last type_matches with
        | None => Exited ("Invalid URL: " +:+ dq +:+ link +:+ dq)
        | Some t =>
            Ok (append_media service_name
                  (mkMediaIdentification t (default EmptyString (last components)) None) media)
        end
  end.

(** One iteration of [for link in arguments]. *)
Definition link_step (media : batch) (link : string) : outcome batch :=
  if String.prefix "http" link then
    let url := urlparse link in
    let components := split_str "/" (path url) in
    match find_service (netloc url) with
    | Some service_name =>
        if String.eqb service_name "" then
          Raised ("URL location " +:+ dq +:+ netloc url +:+ dq +:+ " is not found in modules!")
        else
          let media := if bool_decide (service_name ∈ dom media) then media
                       else <[ service_name := [] ]> media in
          route_in_module media service_name link components
    | None =>
        Raised ("URL location " +:+ dq +:+ netloc url +:+ dq +:+ " is not found in modules!")
    end
  else Raised ("Invalid argument: " +:+ dq +:+ link +:+ dq).

Fixpoint process_links (media : batch) (links : list string) : outcome batch :=
  match links with
  | [] => Ok media
  | link :: rest =>
      match link_step media link with
      | Ok media' => process_links media' rest
      | Raised m => Raised m
      | Exited m => Exited m
      end
  end.

(** The rest of [main]: report an empty batch, then hand the batch to
    [orpheus_core_download]. The result is the printed lines and the batch
    handed over. *)
Definition handoff (media_to_download : batch) : list string * batch :=
  (if bool_decide (media_to_download = ∅) then ["No links given"] else [],
   media_to_download).

(** The links branch: [media_to_download = {}], the loop, the handoff. *)
Definition links_mode (arguments : list string) : outcome (list string * batch) :=
  match process_links ∅ arguments with
  | Ok media_to_download => Ok (handoff media_to_download)
  | Raised m => Raised m
  | Exited m => Exited m
  end.

End Router.

(** ** Concrete collaborators for the examples

    [literal_findall] agrees with [re.findall] on patterns without regex
    metacharacters; [urlparse_simple] agrees with [urlparse] on links
    [scheme://netloc/path] without query, fragment or [;params]. *)
Fixpoint substring_at (pat s : string) : bool :=
  String.prefix pat s || match s with String _ s' => substring_at pat s' | EmptyString => false end.

Definition literal_findall (pat host : string) : list string :=
  if substring_at pat host then [pat] else [].

Fixpoint after_scheme (s : string) : string :=
  match s with
  | String c (String c1 (String c2 rest) as s') =>
      if Ascii.eqb c ":" && Ascii.eqb c1 "/" && Ascii.eqb c2 "/" then rest
      else after_scheme s'
  | _ => EmptyString
  end.

Fixpoint netloc_part (s : string) : string :=
  match s with
  | String c s' => if Ascii.eqb c "/" then EmptyString else String c (netloc_part s')
  | EmptyString => EmptyString
  end.

Fixpoint path_part (s : string) : string :=
  match s with
  | String c s' => if Ascii.eqb c "/" then s else path_part s'
  | EmptyString => EmptyString
  end.

Definition urlparse_simple (link : string) : ParseResult :=
  let rest := after_scheme link in mkParseResult (netloc_part rest) (path_part rest).

(** A registry with one module, [deezer], on the default rules. *)
Definition deezer_netlocs : list (string * string) := [("deezer.com", "deezer")].
Definition auto_settings (_ : string) : ModuleSettings := mkModuleSettings auto None.
Definition manual_settings (_ : string) : ModuleSettings := mkModuleSettings manual None.
Definition custom_parse_example (_ link : string) : MediaIdentification :=
  mkMediaIdentification track link None.

(** ** Readings of the spec, to compare the router with *)

(** The module of the last pattern, in registry order, that matches [host]. *)
Definition last_matching_module {regex} (re_findall : regex -> string -> list string)
    (netlocs : list (regex * string)) (host : string) : option string :=
  last (map snd (List.filter (fun '(i, _) => match re_findall i host with [] => false | _ => true end) netlocs)).

(** The rule set in force: the module's mapping if present and non-empty,
    else the default four-entry mapping. *)
Definition effective_rules (settings : ModuleSettings) : list (string * DownloadTypeEnum) :=
  match url_constants settings with
  | Some ((_ :: _) as uc) => uc
  | _ => default_url_constants
  end.

(** The type bound to the last rule key, in mapping order, that is one of
    the path segments. *)
Fixpoint last_key_type (rules : list (string * DownloadTypeEnum)) (segments : list string)
  : option DownloadTypeEnum :=
  match rules with
  | [] => None
  | (key, t) :: rest =>
      match last_key_type rest segments with
      | Some t' => Some t'
      | None => if bool_decide (key ∈ segments) then Some t else None
      end
  end.

(** Two-digit, zero-padded rendering of [0 <= n < 60]. *)
Definition pad2 (n : Z) : list N := if n <? 10 then lit "0" ++ str_Z n else str_Z n.

(** Modelled from the spec: [orpheus.music_downloader.beauty_format_seconds]
    (not in this source), rendering as [H:MM:SS] or [MM:SS]; used only for
    concrete examples, the formatter itself takes the function as given. *)
Definition beauty_format_seconds_spec (seconds : Z) : list N :=
  let h := seconds / 3600 in
  let m := (seconds mod 3600) / 60 in
  let sec := seconds mod 60 in
  if 0 <? h then str_Z h ++ lit ":" ++ pad2 m ++ lit ":" ++ pad2 sec
  else pad2 m ++ lit ":" ++ pad2 sec.

(** ** Delimiter-free display text (the formatter's assumption) *)
Definition no_delims (s : list N) : Prop := Forall (fun x => x <> tab /\ x <> pipe) s.

Definition clean_item (item : SearchResult) : Prop :=
  no_delims (name item) /\
  match artists item with
  | ArtistsStr s => no_delims s
  | ArtistsList l => Forall no_delims l
  | ArtistsNone => True
  end /\
  match additional item with q :: _ => no_delims q | [] => True end.

(** A row whose name holds a pipe, as in "AC|DC". *)
Definition pipe_name_item : SearchResult :=
  mkSearchResult "1" (lit "AC|DC Live") (ArtistsStr (lit "AC/DC")) None None false [] [].

(** The six hidden fields, as the spec lists them. *)
Definition hidden_fields_spec (beauty_format_seconds : Z -> list N) (item : SearchResult)
  : list (list N) :=
  [name item;
   match artists item with
   | ArtistsList l => join (lit ", ") l
   | ArtistsStr s => s
   | ArtistsNone => lit "None"
   end;
   (if truthy_int (year item) then str_Z (default 0 (year item)) else []);
   (if truthy_int (duration item) then beauty_format_seconds (default 0 (duration item)) else []);
   (match additional item with q :: _ => q | [] => [] end);
   (if explicit item then lit "1" else lit "0")].

(** Examples of search results. *)
Definition long_name_item : SearchResult :=
  mkSearchResult "1" (lit "An Extremely Long Album Title For Testing Purposes")
    ArtistsNone None None false [] [].

Definition clean_item_example : SearchResult :=
  mkSearchResult "7" (lit "Song") (ArtistsList [lit "A"; lit "B"]) (Some 1999) (Some 3661)
    true [lit "HiFi Lossless"] [].


(** ** Command dispatch of [main]

    The banner printed first by every run is left out of the trace. *)

(** [ModuleModes], in the order the [tpm] dict lists them. *)
Inductive ModuleModes := covers | lyrics | credits.

Definition tpm_modes : list ModuleModes := [covers; lyrics; credits].

(** The namespace [parser.parse_args()] returns. *)
Record cli_args := mkArgs {
  private : bool;
  output : option string;
  arg_lyrics : string;
  arg_covers : string;
  arg_credits : string;
  separatedownload : string;
  arguments : list string
}.

(** [getattr(args, i.name)]. *)
Definition arg_of (args : cli_args) (i : ModuleModes) : string :=
  match i with
  | covers => arg_covers args
  | lyrics => arg_lyrics args
  | credits => arg_credits args
  end.

(** The parts of [Orpheus(args.private)] that [main] reads. *)
Record Orpheus := mkOrpheus {
  module_list : list string;
  (** [ModuleFlags.hidden in orpheus.module_settings[i].flags] *)
  module_hidden : string -> bool;
  (** [orpheus.settings['global']['general']['download_path']] *)
  download_path : string;
  (** [orpheus.settings['global']['general']['search_limit']] *)
  search_limit_setting : nat;
  (** [orpheus.settings['global']['module_defaults'][i.name]] *)
  module_defaults : ModuleModes -> string;
  (** [orpheus.load_module(m).search] *)
  load_search : string -> DownloadTypeEnum -> string -> nat -> list SearchResult;
  (** [os.path.exists] and [tuple(open(f, 'r'))] *)
  path_exists : string -> bool;
  read_lines : string -> list string
}.

(** Observable effects of [main], in the order they happen. *)
Inductive main_event :=
| EvHelp                       (** [parser.print_help()] *)
| EvPrint (msg : string)       (** [print(msg)] *)
| EvMakedirs (p : string)      (** [os.makedirs(path, exist_ok=True)] *)
| EvLoad (m : string)          (** [orpheus.load_module(m)] in settings and search *)
| EvSelect (e : event).        (** the search and the selection backend *)

(** How [main] ends when it neither raises nor exits: a plain [return], or
    the call [orpheus_core_download(orpheus, media_to_download, tpm, sdm, path)]. *)
Inductive main_result :=
| Returned
| Handoff (media : batch) (tpm : list (ModuleModes * option string)) (sdm : string) (p : string).

(** The members of [DownloadTypeEnum] in declaration order. *)
Definition download_types : list DownloadTypeEnum := [track; playlist; artist; album].

Definition media_types : string := String.concat "/" (map type_name download_types).

(** [DownloadTypeEnum[s]]; [None] is the [KeyError]. *)
Definition parse_type (s : string) : option DownloadTypeEnum :=
  find (fun t => String.eqb (type_name t) s) download_types.

Definition unknown_module (o : Orpheus) (modulename : string) : string :=
  "Unknown module name " +:+ dq +:+ modulename +:+ dq +:+ ". Must select from: " +:+
  String.concat ", " (List.filter (fun i => negb (module_hidden o i)) (module_list o)).

Definition index_error : string := "list index out of range".

(** [path = args.output if args.output else <download_path>], then
    [if path[-1] == '/': path = path[:-1]]; [None] is the [IndexError] of
    [path[-1]] on an empty path. *)
Definition output_path (o : Orpheus) (args : cli_args) : option string :=
  let p := match output args with
           | Some out => if String.eqb out "" then download_path o else out
           | None => download_path o
           end in
  match rev (list_ascii_of_string p) with
  | [] => None
  | c :: r => if Ascii.eqb c "/" then Some (string_of_list_ascii (rev r)) else Some p
  end.

(** One pass of the [for i in tpm] loop. *)
Definition resolve_module (o : Orpheus) (args : cli_args) (i : ModuleModes) : option string :=
  let moduleselected := Py.lower (arg_of args i) in
  let moduleselected :=
    if String.eqb moduleselected "default" then module_defaults o i else moduleselected in
  if String.eqb moduleselected "default" then None else Some moduleselected.

Definition tpm (o : Orpheus) (args : cli_args) : list (ModuleModes * option string) :=
  map (fun i => (i, resolve_module o args i)) tpm_modes.

(** The [settings] branch. *)
Definition settings_mode (o : Orpheus) (arguments : list string)
  : list main_event * outcome main_result :=
  match nth_error arguments 1 with
  | None => ([], Raised index_error)
  | Some a1 =>
      let setting := Py.lower a1 in
      if String.eqb setting "refresh" then
        ([EvPrint "settings.json has been refreshed successfully."], Ok Returned)
      else if String.eqb setting "core_update" || String.eqb setting "full_update" ||
              String.eqb setting "module_install" || String.eqb setting "test_modules" then
        ([], Ok Returned)
      else if bool_decide (setting ∈ module_list o) then
        match nth_error arguments 2 with
        | None => ([EvLoad setting], Raised index_error)
        | Some a2 =>
            let modulesetting := Py.lower a2 in
            if String.eqb modulesetting "update" || String.eqb modulesetting "setup" ||
               String.eqb modulesetting "adjust_setting" || String.eqb modulesetting "test" then
              ([EvLoad setting], Ok Returned)
            else
              ([EvLoad setting],
               Raised ("Unknown setting " +:+ dq +:+ modulesetting +:+ dq +:+
                       " for module " +:+ dq +:+ setting +:+ dq))
        end
      else ([], Raised ("Unknown setting: " +:+ dq +:+ setting +:+ dq))
  end.

(** The [sessions] branch. *)
Definition sessions_mode (o : Orpheus) (arguments : list string)
  : list main_event * outcome main_result :=
  match nth_error arguments 1 with
  | None => ([], Raised index_error)
  | Some a1 =>
      let module := Py.lower a1 in
      if bool_decide (module ∈ module_list o) then
        match nth_error arguments 2 with
        | None => ([], Raised index_error)
        | Some a2 =>
            let option := Py.lower a2 in
            if String.eqb option "add" || String.eqb option "delete" ||
               String.eqb option "list" then ([], Ok Returned)
            else if String.eqb option "test" then
              match nth_error arguments 3 with
              | None => ([], Raised index_error)
              | Some _ => ([], Ok Returned)
              end
            else ([], Raised ("Unknown option " +:+ option +:+ ", choose add/delete/list/test"))
        end
      else ([], Raised ("Unknown module " +:+ module))
  end.

Section Branches.

Variable beauty_format_seconds : Z -> list N.
Context {regex : Type}.
Variable re_findall : regex -> string -> list string.
Variable urlparse : string -> ParseResult.
Variable module_netloc_constants : list (regex * string).
Variable module_settings : string -> ModuleSettings.
Variable custom_url_parse : string -> string -> MediaIdentification.

(** The [search]/[luckysearch] branch; [Ok None] is the [return] for
    [multi]. The [print()] after an interactive selection runs when the
    selection returned, which is when the batch is built (the index is in
    range). *)
Definition search_branch (o : Orpheus) (term : terminal) (lucky_mode : bool)
    (arguments : list string) : list main_event * outcome (option batch) :=
  if (3 <? length arguments)%nat then
    match arguments with
    | _ :: a1 :: a2 :: rest =>
        let modulename := Py.lower a1 in
        if bool_decide (modulename ∈ module_list o) then
          match parse_type (Py.lower a2) with
          | None => ([], Raised (Py.lower a2 +:+ " is not a valid search type! Choose " +:+ media_types))
          | Some query_type =>
              let query := String.concat " " rest in
              let '(ev, res) :=
                search_mode beauty_format_seconds (search_limit_setting o)
                  (load_search o modulename) term lucky_mode modulename query query_type in
              (EvLoad modulename :: map EvSelect ev ++
                 (match res with Ok _ => if lucky_mode then [] else [EvPrint ""] | _ => [] end),
               match res with
               | Ok media => Ok (Some media)
               | Raised m => Raised m
               | Exited m => Exited m
               end)
          end
        else if String.eqb modulename "multi" then ([], Ok None)
        else ([], Raised (unknown_module o modulename))
    | _ => ([], Raised index_error)
    end
  else ([], Exited ("Search must be done as orpheus.py [search/luckysearch] [module] [" +:+
                    media_types +:+ "] [query]")).

(** The [download] branch. *)
Definition download_branch (o : Orpheus) (arguments : list string)
  : list main_event * outcome (option batch) :=
  if (3 <? length arguments)%nat then
    match arguments with
    | _ :: a1 :: a2 :: ids =>
        let modulename := Py.lower a1 in
        if bool_decide (modulename ∈ module_list o) then
          match parse_type (Py.lower a2) with
          | None => ([], Raised (Py.lower a2 +:+ " is not a valid download type! Choose " +:+ media_types))
          | Some media_type =>
              ([], Ok (Some {[ modulename := map (fun i => mkMediaIdentification media_type i None) ids ]}))
          end
        else ([], Raised (unknown_module o modulename))
    | _ => ([], Raised index_error)
    end
  else ([], Exited ("Download must be done as orpheus.py [download] [module] [" +:+
                    media_types +:+ "] [media ID 1] [media ID 2] ...")).

(** The links branch: one existing file argument is read as the links. The
    [load_module] of a manual module inside the loop is not traced. *)
Definition links_branch (o : Orpheus) (arguments : list string)
  : list main_event * outcome (option batch) :=
  let links := match arguments with
               | [a0] => if path_exists o a0 then read_lines o a0 else arguments
               | _ => arguments
               end in
  ([], match process_links re_findall urlparse module_netloc_constants module_settings
               custom_url_parse ∅ links with
       | Ok media => Ok (Some media)
       | Raised m => Raised m
       | Exited m => Exited m
       end).

Definition main (o : Orpheus) (term : terminal) (args : cli_args)
  : list main_event * outcome main_result :=
  match arguments args with
  | [] => ([EvHelp], Exited "")
  | a0 :: _ =>
      let orpheus_mode := Py.lower a0 in
      if String.eqb orpheus_mode "settings" then settings_mode o (arguments args)
      else if String.eqb orpheus_mode "sessions" then sessions_mode o (arguments args)
      else
        match output_path o args with
        | None => ([], Raised "string index out of range")
        | Some p =>
            let '(ev, res) :=
              if String.eqb orpheus_mode "search" || String.eqb orpheus_mode "luckysearch" then
                search_branch o term (String.eqb orpheus_mode "luckysearch") (arguments args)
              else if String.eqb orpheus_mode "download" then download_branch o (arguments args)
              else links_branch o (arguments args) in
            match res with
            | Ok (Some media_to_download) =>
                let '(printed, media) := handoff media_to_download in
                (EvMakedirs p :: ev ++ map EvPrint printed,
                 Ok (Handoff media (tpm o args) (Py.lower (separatedownload args)) p))
            | Ok None => (EvMakedirs p :: ev, Ok Returned)
            | Raised m => (EvMakedirs p :: ev, Raised m)
            | Exited m => (EvMakedirs p :: ev, Exited m)
            end
        end
  end.

End Branches.

(** The words [main] reads as a mode. *)
Definition mode_keywords : list string :=
  ["settings"; "sessions"; "search"; "luckysearch"; "download"].


(** Collaborators for the examples of [main]: three modules, one of them
    hidden, whose search returns two results, and one existing links file,
    which is empty. *)
Definition example_items : list SearchResult := [clean_item_example; long_name_item].

Definition example_orpheus : Orpheus :=
  mkOrpheus ["deezer"; "qobuz"; "internal"] (fun m => String.eqb m "internal") "Downloads/"
    10 (fun _ => "default") (fun _ _ _ _ => example_items)
    (fun f => String.eqb f "links.txt") (fun _ => []).

Definition example_args (l : list string) : cli_args :=
  mkArgs false None "default" "default" "default" "default" l.

(** A terminal without fzf, where the prompt reads [line]. *)
Definition prompt_terminal (line : string) : terminal := mkTerminal false (fun _ _ => None) line.

(** A terminal where fzf exits with status 0 and prints [stdout]. *)
Definition fzf_terminal (stdout : string) : terminal :=
  mkTerminal true (fun _ _ => Some (0, stdout)) EmptyString.


(** * Properties *)

Example process_result_ex1 : process_result "2" 3 = Ok 1.
Proof. reflexivity. Qed.
Example process_result_ex2 : process_result "QuIt" 3 = Exited "".
Proof. reflexivity. Qed.
Example process_result_ex3 : process_result "4" 3 = Raised "Invalid selection".
Proof. reflexivity. Qed.
Example process_result_ex4 : process_result "1a" 3 = Raised "Input a number".
Proof. reflexivity. Qed.
Example process_result_ex5 : process_result (Py.str_nat 123) 200 = Ok 122.
Proof. reflexivity. Qed.



(** ** Selection Validator *)

Lemma all_digits_string_of_uint (d : Decimal.uint) :
  Py.all_digits (NilEmpty.string_of_uint d) = true.
Proof. induction d; simpl; auto. Qed.

Lemma int_acc_string_of_uint (d : Decimal.uint) (acc : nat) :
  Py.int_acc (NilEmpty.string_of_uint d) acc = Nat.of_uint_acc d acc.
Proof.
  revert acc; induction d; intros acc; simpl; try reflexivity;
    rewrite IHd; f_equal; rewrite Nat.tail_mul_spec; simpl; lia.
Qed.

Lemma int_str_nat (n : nat) : Py.int (Py.str_nat n) = n.
Proof.
  unfold Py.int, Py.str_nat. rewrite int_acc_string_of_uint.
  apply DecimalNat.Unsigned.of_to.
Qed.

Lemma isdigit_str_nat (n : nat) : (1 <= n)%nat -> Py.isdigit (Py.str_nat n) = true.
Proof.
  intros Hn. unfold Py.isdigit.
  destruct (Py.str_nat n) eqn:E.
  - pose proof (int_str_nat n) as Hi. rewrite E in Hi. cbv in Hi. subst n. lia.
  - rewrite <- E. apply all_digits_string_of_uint.
Qed.

Lemma lower_all_digits (s : string) : Py.all_digits s = true -> Py.lower s = s.
Proof.
  induction s as [|c s IH]; simpl; [reflexivity|].
  intros [Hc Hs]%andb_prop. rewrite (IH Hs). f_equal.
  unfold Py.is_digit_char in Hc. unfold Py.lower_char.
  apply andb_prop in Hc as [H1 H2]. apply Nat.leb_le in H1, H2.
  destruct (65 <=? nat_of_ascii c)%nat eqn:E; [apply Nat.leb_le in E; lia | reflexivity].
Qed.

Lemma not_quit_all_digits (s : string) : Py.all_digits s = true -> is_quit s = false.
Proof.
  intros H. unfold is_quit. rewrite (lower_all_digits s H).
  apply not_true_is_false. intros Hq. apply existsb_exists in Hq as [q [Hin Heq]].
  apply String.eqb_eq in Heq. subst q.
  repeat destruct Hin as [<-|Hin]; try discriminate; contradiction.
Qed.

(** C1. Selection Validator: for [N >= 1], the strings "1" through [str(N)]
    select the indices [0] through [N-1]; "0", [str(N+1)] and every other
    digit string whose 0-based value is outside [0 <= i < N] raise
    "Invalid selection"; every other non-digit string that is not a quit
    alias raises "Input a number"; and every string whose lowercase form is
    one of e, q, x, exit, quit ends the run through [exit()] (status 0)
    without raising, whatever the digit check would say. *)
Theorem selection_validator (N : nat) (HN : (1 <= N)%nat) :
  (forall k : nat, (1 <= k <= N)%nat ->
     process_result (Py.str_nat k) N = Ok (Z.of_nat k - 1)) /\
  process_result "0" N = Raised "Invalid selection" /\
  process_result (Py.str_nat (N + 1)) N = Raised "Invalid selection" /\
  (forall s : string, is_quit s = false -> Py.isdigit s = true ->
     (Z.of_nat (Py.int s) - 1 < 0 \/ Z.of_nat (Py.int s) - 1 >= Z.of_nat N) ->
     process_result s N = Raised "Invalid selection") /\
  (forall s : string, is_quit s = false -> Py.isdigit s = false ->
     process_result s N = Raised "Input a number") /\
  (forall s : string, In (Py.lower s) quit_aliases -> process_result s N = Exited "").
Proof.
  assert (Hnum : forall k, (1 <= k)%nat ->
            process_result (Py.str_nat k) N =
            let selection := Z.of_nat k - 1 in
            if (selection <? 0) || (selection >=? Z.of_nat N)
            then Raised "Invalid selection" else Ok selection).
  { intros k Hk. unfold process_result.
    rewrite not_quit_all_digits by apply all_digits_string_of_uint.
    rewrite isdigit_str_nat by exact Hk. simpl. rewrite int_str_nat. reflexivity. }
  split; [|split; [|split; [|split; [|split]]]].
  - intros k Hk. rewrite Hnum by lia. simpl.
    destruct (Z.of_nat k - 1 <? 0) eqn:E1; [apply Z.ltb_lt in E1; lia|].
    destruct (Z.of_nat k - 1 >=? Z.of_nat N) eqn:E2; [|reflexivity].
    apply Z.geb_le in E2. lia.
  - reflexivity.
  - rewrite Hnum by lia. simpl.
    destruct (Z.of_nat (N + 1) - 1 <? 0) eqn:E1; [reflexivity|].
    destruct (Z.of_nat (N + 1) - 1 >=? Z.of_nat N) eqn:E2; [reflexivity|].
    exfalso. assert (Hc : (Z.of_nat (N + 1) - 1 >=? Z.of_nat N) = true)
      by (apply Z.geb_le; lia). congruence.
  - intros s Hq Hd Hout. unfold process_result. rewrite Hq, Hd. simpl.
    destruct Hout as [Hout|Hout].
    + apply Z.ltb_lt in Hout. rewrite Hout. reflexivity.
    + assert (E : (Z.of_nat (Py.int s) - 1 >=? Z.of_nat N) = true)
        by (apply Z.geb_le; lia).
      rewrite E, orb_true_r. reflexivity.
  - intros s Hq Hd. unfold process_result. rewrite Hq, Hd. reflexivity.
  - intros s Hin. unfold process_result, is_quit.
    assert (E : existsb (String.eqb (Py.lower s)) quit_aliases = true).
    { apply existsb_exists. exists (Py.lower s). split; [exact Hin|].
      apply String.eqb_refl. }
    rewrite E. reflexivity.
Qed.

Lemma selection_validator_witness :
  process_result "3" 3 = Ok 2 /\ process_result "4" 3 = Raised "Invalid selection" /\
  process_result "Exit" 3 = Exited "".
Proof.
  destruct (selection_validator 3 ltac:(lia)) as (H1 & _ & H3 & _ & _ & H6).
  split; [apply (H1 3%nat); lia|]. split; [apply H3|]. apply H6. simpl. tauto.
Defined.

(** ** Search modes *)

Lemma process_result_raised (s : string) (n : nat) (m : string) :
  process_result s n = Raised m -> m = "Input a number" \/ m = "Invalid selection".
Proof.
  unfold process_result.
  destruct (is_quit s); [discriminate|].
  destruct (negb (Py.isdigit s)); [intros [= <-]; auto|].
  destruct (_ || _); [intros [= <-]; auto | discriminate].
Qed.

Lemma process_result_ok (s : string) (n : nat) (i : Z) :
  process_result s n = Ok i -> 0 <= i < Z.of_nat n.
Proof.
  unfold process_result.
  destruct (is_quit s); [discriminate|].
  destruct (negb (Py.isdigit s)); [discriminate|].
  destruct (Z.of_nat (Py.int s) - 1 <? 0) eqn:E1; [discriminate|].
  destruct (Z.of_nat (Py.int s) - 1 >=? Z.of_nat n) eqn:E2; [discriminate|].
  intros [= <-]. apply Z.ltb_ge in E1. rewrite Z.geb_leb, Z.leb_gt in E2. lia.
Qed.

Lemma py_index_in_bounds {A} (l : list A) (i : Z) :
  0 <= i < Z.of_nat (length l) -> is_Some (py_index l i).
Proof.
  intros Hi. unfold py_index.
  destruct (i <? 0) eqn:E; [apply Z.ltb_lt in E; lia|].
  apply lookup_lt_is_Some. lia.
Qed.

(** C8. Lucky-search mode: the module's search is called once, with limit 1;
    with at least one result the first one (index 0) is taken, and neither
    fzf nor the fallback prompt is run; with no result the search raises
    "No search results for <type>: <query>" before any selection. *)
Theorem lucky_search_mode (beauty_format_seconds : Z -> list N) (search_limit : nat)
    (module_search : DownloadTypeEnum -> string -> nat -> list SearchResult)
    (term : terminal) (modulename query : string) (query_type : DownloadTypeEnum) :
  search_mode beauty_format_seconds search_limit module_search term true modulename query query_type =
  match module_search query_type query 1%nat with
  | [] => ([EvSearch query_type query 1],
           Raised ("No search results for " +:+ type_name query_type +:+ ": " +:+ query))
  | first :: _ =>
      ([EvSearch query_type query 1],
       Ok {[ modulename := [mkMediaIdentification query_type (result_id first)
                              (Some (extra_kwargs first))] ]})
  end.
Proof.
  unfold search_mode. destruct (module_search query_type query 1%nat); reflexivity.
Qed.

(** C10. In-bounds selection: whenever the validator returns an index [i]
    (no quit, no error), [0 <= i < len(items)]; so in both lucky and
    interactive mode the lookup [items[selection]] never raises an
    [IndexError]. *)
Theorem selection_in_bounds :
  (forall (s : string) (n : nat) (i : Z), process_result s n = Ok i -> 0 <= i < Z.of_nat n) /\
  (forall (beauty_format_seconds : Z -> list N) (search_limit : nat)
     (module_search : DownloadTypeEnum -> string -> nat -> list SearchResult)
     (term : terminal) (lucky_mode : bool) (modulename query : string)
     (query_type : DownloadTypeEnum),
     snd (search_mode beauty_format_seconds search_limit module_search term lucky_mode
            modulename query query_type) <> Raised "list index out of range").
Proof.
  split; [exact process_result_ok|].
  intros bfs limit search term lucky modulename query qt.
  unfold search_mode.
  set (items := search qt query (if lucky then 1%nat else limit)).
  destruct (length items =? 0)%nat eqn:Hlen; [simpl; discriminate|].
  apply Nat.eqb_neq in Hlen.
  assert (Hpick : forall i, 0 <= i < Z.of_nat (length items) ->
            match py_index items i with
            | Some selected_item =>
                Ok (A := batch) {[ modulename := [mkMediaIdentification qt (result_id selected_item)
                                       (Some (extra_kwargs selected_item))] ]}
            | None => Raised "list index out of range"
            end <> Raised "list index out of range").
  { intros i Hi. destruct (py_index_in_bounds items i Hi) as [x Hx].
    rewrite Hx. discriminate. }
  destruct lucky.
  - simpl. apply Hpick. lia.
  - unfold interactive_selection.
    destruct (let '(ev_fzf, selection_input) := _ in _) as [ev sel] eqn:Hsel.
    simpl.
    destruct (fzf_found term); simpl in Hsel;
      repeat match type of Hsel with
      | context [match ?o with Some _ => _ | None => _ end] => destruct o
      | context [if ?b then _ else _] => destruct b
      end;
      injection Hsel as <- <-;
      match goal with
      | |- context [process_result ?s ?n] =>
          destruct (process_result s n) as [i|m|m] eqn:Hp; simpl
      end;
      try (apply Hpick; apply (process_result_ok _ _ _ Hp));
      try (apply process_result_raised in Hp as [-> | ->]; discriminate);
      discriminate.
Qed.

Lemma selection_in_bounds_witness : 0 <= 1 < Z.of_nat 3.
Proof. exact (proj1 selection_in_bounds "2" 3%nat 1 eq_refl). Defined.

(** ** Candidate Formatter *)

(** C9. A year of 0 and a duration of 0 seconds are shown exactly as absent
    ones: the row is the same as for [None], the visible half shows the
    "----" year and "--:--" duration placeholders, and the hidden year and
    duration fields are empty. *)
Theorem zero_year_duration_as_absent (beauty_format_seconds : Z -> list N)
    (layout : layout_mode) (index : nat) (rid : string) (nm : list N) (a : artists_val)
    (y d : option Z) (e : bool) (adds : list (list N)) (kw : kwargs) :
  let with_year y' := mkSearchResult rid nm a y' d e adds kw in
  let with_dur d' := mkSearchResult rid nm a y d' e adds kw in
  choice beauty_format_seconds layout index (with_year (Some 0)) =
    choice beauty_format_seconds layout index (with_year None) /\
  choice beauty_format_seconds layout index (with_dur (Some 0)) =
    choice beauty_format_seconds layout index (with_dur None) /\
  year_str (with_year (Some 0)) = lit "----" /\ year_str (with_year None) = lit "----" /\
  short_dur beauty_format_seconds (with_dur (Some 0)) = lit "--:--" /\
  short_dur beauty_format_seconds (with_dur None) = lit "--:--" /\
  h_year (with_year (Some 0)) = [] /\ h_year (with_year None) = [] /\
  h_dur beauty_format_seconds (with_dur (Some 0)) = [] /\
  h_dur beauty_format_seconds (with_dur None) = [].
Proof. repeat split; reflexivity. Qed.

(** C6. Name column of the detailed layout: a name longer than 38
    characters is shown as its first 37 characters and the ellipsis, 38
    characters in all, then padded to the 40-wide column; a name of at most
    38 characters is shown whole, without the ellipsis, padded to 40. *)
Theorem detailed_name_column (beauty_format_seconds : Z -> list N) (index : nat)
    (item : SearchResult) :
  let prefix := ljust 4 (str_nat index ++ lit ".") ++ lit " " in
  ((38 < length (name item))%nat ->
     length (take 37 (name item) ++ [ellipsis]) = 38%nat /\
     exists rest,
       visible beauty_format_seconds detailed index item =
       prefix ++ (take 37 (name item) ++ [ellipsis]) ++ replicate 2 space ++ lit " " ++ rest) /\
  ((length (name item) <= 38)%nat ->
     exists rest,
       visible beauty_format_seconds detailed index item =
       prefix ++ name item ++ replicate (40 - length (name item)) space ++ lit " " ++ rest).
Proof.
  intros prefix. split.
  - intros Hlong. split.
    + rewrite length_app, length_take. cbn [length]. lia.
    + eexists. unfold visible, trunc_name, prefix.
      replace (38 <? length (name item))%nat with true by (symmetry; apply Nat.ltb_lt; lia).
      unfold ljust at 2. rewrite length_app, length_take.
      replace (40 - (Init.Nat.min 37 (length (name item)) + length [ellipsis]))%nat with 2%nat
        by (cbn [length]; lia).
      rewrite <- !app_assoc. reflexivity.
  - intros Hshort. eexists. unfold visible, trunc_name, prefix.
    replace (38 <? length (name item))%nat with false by (symmetry; apply Nat.ltb_ge; lia).
    unfold ljust at 2. rewrite <- !app_assoc. reflexivity.
Qed.

Lemma detailed_name_column_witness :
  (38 < length (name long_name_item))%nat /\
  length (take 37 (name long_name_item) ++ [ellipsis]) = 38%nat.
Proof.
  assert (H : (38 < length (name long_name_item))%nat) by (vm_compute; lia).
  split; [exact H|].
  exact (proj1 (proj1 (detailed_name_column beauty_format_seconds_spec 1 long_name_item) H)).
Defined.

Lemma no_delims_app (a b : list N) : no_delims a -> no_delims b -> no_delims (a ++ b).
Proof. apply Forall_app_2. Qed.

Lemma no_delims_take (n : nat) (a : list N) : no_delims a -> no_delims (take n a).
Proof. apply Forall_take. Qed.

Lemma no_delims_replicate_space (n : nat) : no_delims (replicate n space).
Proof. apply Forall_replicate. split; discriminate. Qed.

Lemma no_delims_check (a : list N) :
  forallb (fun x => negb (N.eqb x tab) && negb (N.eqb x pipe)) a = true -> no_delims a.
Proof.
  induction a as [|x a IH]; simpl; [constructor|].
  intros [[Ht Hp]%andb_prop Ha]%andb_prop. constructor; [|apply IH, Ha].
  apply negb_true_iff, N.eqb_neq in Ht, Hp. split; assumption.
Qed.

Lemma no_delims_string_of_uint (d : Decimal.uint) : no_delims (lit (NilEmpty.string_of_uint d)).
Proof.
  induction d; [constructor|..]; unfold lit in *; simpl; constructor; auto;
    split; intros H; vm_compute in H; discriminate.
Qed.

Lemma no_delims_str_nat (n : nat) : no_delims (str_nat n).
Proof. apply no_delims_string_of_uint. Qed.

Lemma no_delims_str_Z (z : Z) : no_delims (str_Z z).
Proof.
  unfold str_Z. destruct (Z.to_int z) as [d|d]; simpl; [apply no_delims_string_of_uint|].
  constructor; [split; intros H; vm_compute in H; discriminate|].
  apply no_delims_string_of_uint.
Qed.

Lemma split_on_pieces (P : N -> Prop) (c : N) (s : list N) :
  Forall P s -> Forall (Forall P) (split_on c s).
Proof.
  induction s as [|x s IH]; simpl; intros Hs; [repeat constructor|].
  inversion Hs as [|? ? Hx Hs']; subst. specialize (IH Hs').
  destruct (N.eqb x c); [constructor; auto|].
  destruct (split_on c s) as [|y r]; [repeat constructor; auto|].
  inversion IH; subst. constructor; [constructor|]; auto.
Qed.

Lemma no_delims_split_nth (c : N) (s : list N) (i : nat) :
  no_delims s -> forall p, split_on c s !! i = Some p -> no_delims p.
Proof.
  intros Hs p Hp. pose proof (split_on_pieces _ c s Hs) as H.
  rewrite Forall_lookup in H. exact (H i p Hp).
Qed.

Lemma no_delims_join (sep : list N) (l : list (list N)) :
  no_delims sep -> Forall no_delims l -> no_delims (join sep l).
Proof.
  intros Hsep. induction l as [|x [|y l] IH]; simpl; intros Hl; [constructor|..].
  - inversion Hl; auto.
  - inversion Hl; subst. apply no_delims_app; [auto|]. apply no_delims_app; auto.
Qed.

Create HintDb delims.
#[export] Hint Resolve no_delims_app no_delims_take no_delims_replicate_space
  no_delims_str_nat no_delims_str_Z no_delims_join : delims.
#[export] Hint Extern 1 (no_delims _) => (apply no_delims_check; vm_compute; reflexivity) : delims.

Lemma no_delims_short_dur (beauty_format_seconds : Z -> list N) (item : SearchResult) :
  (forall d, no_delims (beauty_format_seconds d)) ->
  no_delims (full_dur beauty_format_seconds item) /\
  no_delims (short_dur beauty_format_seconds item).
Proof.
  intros Hb.
  assert (Hf : no_delims (full_dur beauty_format_seconds item)).
  { unfold full_dur. destruct (truthy_int (duration item)); eauto with delims. }
  split; [exact Hf|]. unfold short_dur.
  destruct (contains (lit "h") _); [|exact Hf].
  destruct (split_on colon _) as [|p0 [|p1 r]] eqn:E; try exact Hf.
  pose proof (no_delims_split_nth colon _ 0 Hf p0) as H0.
  pose proof (no_delims_split_nth colon _ 1 Hf p1) as H1.
  rewrite E in H0, H1. simpl in H0, H1. eauto with delims.
Qed.

Lemma no_delims_visible (beauty_format_seconds : Z -> list N) (layout : layout_mode)
    (index : nat) (item : SearchResult) :
  (forall d, no_delims (beauty_format_seconds d)) -> clean_item item ->
  no_delims (visible beauty_format_seconds layout index item).
Proof.
  intros Hb (Hn & _ & Hq).
  destruct (no_delims_short_dur beauty_format_seconds item Hb) as [_ Hs].
  assert (Ht : no_delims (trunc_name item)).
  { unfold trunc_name. destruct (_ <? _)%nat; eauto with delims. }
  assert (Hy : no_delims (year_str item)).
  { unfold year_str. destruct (truthy_int _); eauto with delims. }
  assert (He : no_delims (expl item)).
  { unfold expl. destruct (explicit item); eauto with delims. }
  assert (Hfq : no_delims (full_qual item)).
  { unfold full_qual. destruct (additional item); eauto with delims. }
  assert (Hsq : no_delims (short_qual item)).
  { unfold short_qual. repeat destruct (contains _ _); eauto with delims. }
  destruct layout; unfold visible, ljust; eauto 20 with delims.
Qed.

Lemma no_delims_not_tab (a : list N) : no_delims a -> tab ∉ a.
Proof. intros H Hin. unfold no_delims in H. rewrite Forall_forall in H. destruct (H tab Hin). auto. Qed.

Lemma no_delims_not_pipe (a : list N) : no_delims a -> pipe ∉ a.
Proof. intros H Hin. unfold no_delims in H. rewrite Forall_forall in H. destruct (H pipe Hin). auto. Qed.

Lemma split_on_no_sep (c : N) (a : list N) : c ∉ a -> split_on c a = [a].
Proof.
  induction a as [|x a IH]; simpl; intros Hc; [reflexivity|].
  rewrite elem_of_cons in Hc.
  destruct (N.eqb_spec x c) as [->|_]; [tauto|].
  rewrite IH by tauto. reflexivity.
Qed.

Lemma split_on_app_sep (c : N) (a b : list N) :
  c ∉ a -> split_on c (a ++ c :: b) = a :: split_on c b.
Proof.
  induction a as [|x a IH]; simpl; intros Hc.
  - rewrite N.eqb_refl. reflexivity.
  - rewrite elem_of_cons in Hc.
    destruct (N.eqb_spec x c) as [->|_]; [tauto|].
    rewrite IH by tauto. reflexivity.
Qed.

Lemma app_tab_unique (v1 v2 h1 h2 : list N) :
  tab ∉ v1 -> tab ∉ v2 -> v1 ++ tab :: h1 = v2 ++ tab :: h2 -> v1 = v2 /\ h1 = h2.
Proof.
  revert v2. induction v1 as [|x v1 IH]; intros [|y v2]; simpl; intros H1 H2 Heq.
  - injection Heq as ->. auto.
  - injection Heq as Hy _. subst y. exfalso. apply H2. apply list_elem_of_here.
  - injection Heq as Hx _. subst x. exfalso. apply H1. apply list_elem_of_here.
  - injection Heq as -> Heq.
    rewrite elem_of_cons in H1, H2.
    destruct (IH v2) as [-> ->]; [tauto|tauto|exact Heq|]. auto.
Qed.

Lemma build_choices_length (beauty_format_seconds : Z -> list N) (layout : layout_mode)
    (index : nat) (items : list SearchResult) :
  length (build_choices beauty_format_seconds layout index items) = length items.
Proof.
  revert index. induction items as [|it items IH]; intros index; simpl; [reflexivity|].
  rewrite IH. reflexivity.
Qed.

Lemma choice_shape (beauty_format_seconds : Z -> list N) (layout : layout_mode)
    (index : nat) (item : SearchResult) :
  (forall d, no_delims (beauty_format_seconds d)) -> clean_item item ->
  exists vis hid,
    choice beauty_format_seconds layout index item = vis ++ [tab] ++ hid /\
    vis ≠ [] /\ (tab ∉ vis) /\ (tab ∉ hid) /\
    split_on pipe hid = hidden_fields_spec beauty_format_seconds item.
Proof.
  intros Hb Hc.
  pose proof (no_delims_visible beauty_format_seconds layout index item Hb Hc) as Hv.
  destruct Hc as (Hn & Ha & Hq).
  assert (Hfa : no_delims (full_artist item)).
  { unfold full_artist. destruct (artists item); eauto with delims. }
  assert (Hy : no_delims (h_year item)).
  { unfold h_year, year_str. destruct (truthy_int _); eauto with delims. }
  assert (Hd : no_delims (h_dur beauty_format_seconds item)).
  { unfold h_dur. destruct (no_delims_short_dur beauty_format_seconds item Hb) as [Hf _].
    destruct (truthy_int _); eauto with delims. }
  assert (Hql : no_delims (h_qual item)).
  { unfold h_qual, full_qual. destruct (additional item); eauto with delims. }
  assert (Hx : no_delims (is_expl_str item)).
  { unfold is_expl_str. destruct (explicit item); eauto with delims. }
  exists (visible beauty_format_seconds layout index item), (hidden beauty_format_seconds item).
  split; [reflexivity|]. split; [|split; [|split]].
  - intros Hnil. apply (f_equal length) in Hnil.
    destruct layout; unfold visible, ljust in Hnil; rewrite !length_app in Hnil;
      cbn [length lit map list_ascii_of_string] in Hnil; lia.
  - exact (no_delims_not_tab _ Hv).
  - assert (Hh : Forall (fun x => x <> tab) (hidden beauty_format_seconds item)).
    { assert (Hp : Forall (fun x => x <> tab) [pipe]) by (repeat constructor; discriminate).
      unfold hidden.
      repeat apply Forall_app_2;
        first [exact Hp | eapply Forall_impl; [eassumption | intros x [? ?]; assumption]]. }
    intros Hin. rewrite Forall_forall in Hh. exact (Hh tab Hin eq_refl).
  - unfold hidden. cbn [app].
    rewrite !split_on_app_sep by (apply no_delims_not_pipe; assumption).
    rewrite split_on_no_sep by (apply no_delims_not_pipe; assumption).
    unfold hidden_fields_spec, full_artist, h_year, year_str, h_dur, full_dur, h_qual, full_qual,
      is_expl_str.
    destruct (truthy_int (year item)), (truthy_int (duration item)), (additional item);
      reflexivity.
Qed.

(** C5. Candidate Formatter rows: N items give N rows, row k from item k;
    when no name, artist string, first [additional] string or duration text
    contains a tab or a pipe, each row has exactly one tab, splitting it
    into a non-empty visible half and a hidden payload of exactly six
    pipe-separated fields: name, artists (a list joined by ", "), year or
    empty, full duration or empty, full quality or empty, "1"/"0". *)
Theorem formatter_rows (beauty_format_seconds : Z -> list N)
    (Hb : forall d, no_delims (beauty_format_seconds d))
    (query_type : DownloadTypeEnum) (items : list SearchResult)
    (Hclean : Forall clean_item items) :
  length (choices beauty_format_seconds query_type items) = length items /\
  Forall2 (fun item row =>
             exists vis hid,
               row = vis ++ [tab] ++ hid /\ vis ≠ [] /\ (tab ∉ vis) /\ (tab ∉ hid) /\
               split_on pipe hid = hidden_fields_spec beauty_format_seconds item)
          items (choices beauty_format_seconds query_type items).
Proof.
  split; [apply build_choices_length|].
  unfold choices. generalize 1%nat as index.
  induction Hclean as [|it items Hit Hclean IH]; intros index; simpl; constructor.
  - apply choice_shape; assumption.
  - apply IH.
Qed.

Lemma formatter_rows_witness :
  length (choices beauty_format_seconds_spec track [clean_item_example]) = 1%nat.
Proof.
  refine (proj1 (formatter_rows beauty_format_seconds_spec _ track [clean_item_example] _)).
  - intros d. unfold beauty_format_seconds_spec, pad2.
    repeat destruct (_ <? _); eauto 20 with delims.
  - repeat constructor; vm_compute; try discriminate.
Defined.

(** C5, as stated for every list of results, fails: a pipe in a name adds a
    seventh field to the hidden payload. *)
Lemma formatter_rows_counterexample :
  ~ (forall items : list SearchResult,
       Forall (fun row =>
                 exists vis hid,
                   row = vis ++ [tab] ++ hid /\ vis ≠ [] /\ (tab ∉ vis) /\ (tab ∉ hid) /\
                   length (split_on pipe hid) = 6%nat)
              (choices beauty_format_seconds_spec track items)).
Proof.
  intros H. specialize (H [pipe_name_item]).
  inversion H as [|row ? Hrow _ Hrows]; subst.
  destruct Hrow as (vis & hid & Heq & _ & Hv & Hh & Hlen).
  assert (Hv0 : tab ∉ visible beauty_format_seconds_spec detailed 1 pipe_name_item).
  { apply (bool_decide_unpack _). vm_compute. exact I. }
  destruct (app_tab_unique _ _ _ _ Hv0 Hv Heq) as [_ <-].
  vm_compute in Hlen. discriminate.
Qed.

(** ** URL Router *)

Section RouterProofs.

Context {regex : Type}.
Variable re_findall : regex -> string -> list string.
Variable urlparse : string -> ParseResult.
Variable module_netloc_constants : list (regex * string).
Variable module_settings : string -> ModuleSettings.
Variable custom_url_parse : string -> string -> MediaIdentification.

Lemma find_service_fold (host : string) (l : list (regex * string)) (acc : option string) :
  fold_left (fun service_name '(i, m) =>
               match re_findall i host with [] => service_name | _ => Some m end) l acc =
  match last (map snd (List.filter (fun '(i, _) =>
                 match re_findall i host with [] => false | _ => true end) l)) with
  | Some m => Some m
  | None => acc
  end.
Proof.
  revert acc. induction l as [|[i m] l IH]; intros acc; simpl; [reflexivity|].
  rewrite IH. destruct (re_findall i host); simpl; [reflexivity|].
  rewrite last_cons. destruct (last _); reflexivity.
Qed.

Lemma find_service_last (host : string) :
  find_service re_findall module_netloc_constants host =
  last_matching_module re_findall module_netloc_constants host.
Proof.
  unfold find_service, last_matching_module. rewrite find_service_fold.
  destruct (last _); reflexivity.
Qed.

Lemma last_matching_module_in (host m : string) :
  last_matching_module re_findall module_netloc_constants host = Some m ->
  In m (map snd module_netloc_constants).
Proof.
  unfold last_matching_module. intros H.
  apply last_Some_elem_of, list_elem_of_In in H.
  apply in_map_iff in H as [[i m'] [Heq Hin]]. simpl in Heq. subst m'.
  apply filter_In in Hin as [Hin _]. apply in_map_iff. exists (i, m). auto.
Qed.

Lemma append_media_ensure (m : string) (x : MediaIdentification) (media : batch) :
  append_media m x (if bool_decide (m ∈ dom media) then media else <[ m := [] ]> media) =
  append_media m x media.
Proof.
  case_bool_decide as Hin; [reflexivity|].
  unfold append_media. rewrite lookup_insert_eq, insert_insert_eq.
  rewrite not_elem_of_dom in Hin. rewrite Hin. reflexivity.
Qed.

(** C3. Network-location resolution: every registered pattern is tried on
    the URL's host component in registry order and the module of the last
    matching pattern is the one the link is routed to; when no pattern
    matches, the router raises "URL location ... is not found in modules!".
    (Module names are non-empty, as registry names are.) *)
Theorem netloc_resolution (media : batch) (link : string)
    (Hhttp : String.prefix "http" link = true)
    (Hnames : Forall (fun p => p.2 <> EmptyString) module_netloc_constants) :
  find_service re_findall module_netloc_constants (netloc (urlparse link)) =
    last_matching_module re_findall module_netloc_constants (netloc (urlparse link)) /\
  link_step re_findall urlparse module_netloc_constants module_settings custom_url_parse
    media link =
  match last_matching_module re_findall module_netloc_constants (netloc (urlparse link)) with
  | None =>
      Raised ("URL location " +:+ dq +:+ netloc (urlparse link) +:+ dq +:+
              " is not found in modules!")
  | Some m =>
      route_in_module module_settings custom_url_parse
        (if bool_decide (m ∈ dom media) then media else <[ m := [] ]> media)
        m link (split_str "/" (path (urlparse link)))
  end.
Proof.
  split; [apply find_service_last|].
  unfold link_step. rewrite Hhttp, find_service_last.
  destruct (last_matching_module _ _ _) as [m|] eqn:E; [|reflexivity].
  apply last_matching_module_in in E.
  apply in_map_iff in E as [[i m'] [Heq Hin]]. simpl in Heq. subst m'.
  rewrite Forall_forall in Hnames.
  assert (Hne : m <> EmptyString) by exact (Hnames (i, m) (proj2 (list_elem_of_In _ _) Hin)).
  destruct (String.eqb_spec m EmptyString) as [->|_]; [contradiction|reflexivity].
Qed.

End RouterProofs.

Lemma netloc_resolution_witness :
  link_step literal_findall urlparse_simple deezer_netlocs auto_settings custom_parse_example
    ∅ "https://tidal.com/album/1" =
  Raised ("URL location " +:+ dq +:+ "tidal.com" +:+ dq +:+ " is not found in modules!").
Proof.
  destruct (netloc_resolution literal_findall urlparse_simple deezer_netlocs auto_settings
              custom_parse_example ∅ "https://tidal.com/album/1" eq_refl
              ltac:(repeat constructor; discriminate)) as [_ H].
  rewrite H. reflexivity.
Defined.

Section RouterPaths.

Context {regex : Type}.
Variable re_findall : regex -> string -> list string.
Variable urlparse : string -> ParseResult.
Variable module_netloc_constants : list (regex * string).
Variable module_settings : string -> ModuleSettings.
Variable custom_url_parse : string -> string -> MediaIdentification.

Lemma last_type_matches (rules : list (string * DownloadTypeEnum)) (segments : list string) :
  last (map snd (List.filter (fun '(url_check, _) => bool_decide (url_check ∈ segments)) rules)) =
  last_key_type rules segments.
Proof.
  induction rules as [|[key t] rules IH]; simpl; [reflexivity|].
  rewrite <- IH. case_bool_decide; simpl.
  - rewrite last_cons. reflexivity.
  - destruct (last _); reflexivity.
Qed.

Lemma url_constants_effective (settings : ModuleSettings) :
  match url_constants settings with
  | None | Some [] => default_url_constants
  | Some uc => uc
  end = effective_rules settings.
Proof. unfold effective_rules. destruct (url_constants settings) as [[|]|]; reflexivity. Qed.

(** The link reaches module [m]: it starts with "http" and [m] is the last
    matching, non-empty module name. *)
Lemma link_step_module (media : batch) (link m : string)
    (Hhttp : String.prefix "http" link = true)
    (Hsvc : find_service re_findall module_netloc_constants (netloc (urlparse link)) = Some m)
    (Hm : m <> EmptyString) :
  link_step re_findall urlparse module_netloc_constants module_settings custom_url_parse
    media link =
  route_in_module module_settings custom_url_parse
    (if bool_decide (m ∈ dom media) then media else <[ m := [] ]> media)
    m link (split_str "/" (path (urlparse link))).
Proof.
  unfold link_step. rewrite Hhttp, Hsvc.
  destruct (String.eqb_spec m EmptyString); [contradiction|reflexivity].
Qed.

(** C2 (amended). Automatic path-to-type resolution, for a link routed to a
    module [m] without manual URL decoding whose path splits into at least
    3 segments ending in [final]: the rule set is the module's mapping if
    present and non-empty, else the default four-entry one; the type bound
    to the last rule key, in mapping order, found among the segments is
    chosen and [MediaIdentification(type, final)] is appended to [m]'s
    sequence; with no rule key among the segments the router prints
    'Invalid URL: "<link>"' and ends the run with [exit()] (status 0)
    instead of raising. *)
Theorem auto_path_routing (media : batch) (link m : string) (pre : list string) (final : string)
    (Hhttp : String.prefix "http" link = true)
    (Hsvc : find_service re_findall module_netloc_constants (netloc (urlparse link)) = Some m)
    (Hm : m <> EmptyString)
    (Hauto : url_decoding (module_settings m) = auto)
    (Hsplit : split_str "/" (path (urlparse link)) = pre ++ [final])
    (Hlen : (2 <= length pre)%nat) :
  link_step re_findall urlparse module_netloc_constants module_settings custom_url_parse
    media link =
  match last_key_type (effective_rules (module_settings m)) (pre ++ [final]) with
  | Some t => Ok (append_media m (mkMediaIdentification t final None) media)
  | None => Exited ("Invalid URL: " +:+ dq +:+ link +:+ dq)
  end.
Proof.
  rewrite (link_step_module media link m Hhttp Hsvc Hm), Hsplit.
  unfold route_in_module. rewrite Hauto.
  destruct pre as [|p pre']; [simpl in Hlen; lia|].
  simpl app. cbv iota.
  replace (length (p :: pre' ++ [final]) <=? 2)%nat with false
    by (symmetry; apply Nat.leb_gt; simpl; rewrite length_app; simpl in Hlen; simpl; lia).
  rewrite url_constants_effective, last_type_matches.
  change (p :: pre' ++ [final]) with ((p :: pre') ++ [final]).
  destruct (last_key_type _ _); [|reflexivity].
  rewrite last_snoc. simpl. rewrite append_media_ensure. reflexivity.
Qed.

(** C4 (amended). Path-length guard: a link routed to a module [m] whose
    path splits into fewer than 3 segments is, for a module without manual
    URL decoding, answered by printing a tab and 'Invalid URL: "<link>"' and
    ending the run with [exit()] (status 0), with no MediaIdentification
    and no error raised; a module with manual decoding still gets the link
    and its own parser's result is appended. *)
Theorem short_path_guard (media : batch) (link m : string)
    (Hhttp : String.prefix "http" link = true)
    (Hsvc : find_service re_findall module_netloc_constants (netloc (urlparse link)) = Some m)
    (Hm : m <> EmptyString)
    (Hshort : (length (split_str "/" (path (urlparse link))) < 3)%nat) :
  link_step re_findall urlparse module_netloc_constants module_settings custom_url_parse
    media link =
  match url_decoding (module_settings m) with
  | manual => Ok (append_media m (custom_url_parse m link) media)
  | auto => Exited (String "009" EmptyString +:+ "Invalid URL: " +:+ dq +:+ link +:+ dq)
  end.
Proof.
  rewrite (link_step_module media link m Hhttp Hsvc Hm).
  unfold route_in_module. destruct (url_decoding (module_settings m)).
  - rewrite append_media_ensure. reflexivity.
  - destruct (split_str "/" (path (urlparse link))) as [|c cs]; [reflexivity|].
    replace (length (c :: cs) <=? 2)%nat with true
      by (symmetry; apply Nat.leb_le; lia).
    reflexivity.
Qed.

End RouterPaths.

Lemma auto_path_routing_witness :
  link_step literal_findall urlparse_simple deezer_netlocs auto_settings custom_parse_example
    ∅ "https://www.deezer.com/album/12345" =
  Ok {[ "deezer" := [mkMediaIdentification album "12345" None] ]}.
Proof.
  rewrite (auto_path_routing literal_findall urlparse_simple deezer_netlocs auto_settings
             custom_parse_example ∅ "https://www.deezer.com/album/12345" "deezer"
             ["" ; "album"] "12345" eq_refl eq_refl ltac:(discriminate) eq_refl eq_refl
             ltac:(simpl; lia)).
  vm_compute. reflexivity.
Defined.

(** C2, as stated, fails: a link whose path holds no rule key does not
    raise an error; the run ends through [exit()]. *)
Lemma auto_path_routing_counterexample :
  link_step literal_findall urlparse_simple deezer_netlocs auto_settings custom_parse_example
    ∅ "https://www.deezer.com/foo/12345" =
    Exited ("Invalid URL: " +:+ dq +:+ "https://www.deezer.com/foo/12345" +:+ dq) /\
  is_raised (link_step literal_findall urlparse_simple deezer_netlocs auto_settings
               custom_parse_example ∅ "https://www.deezer.com/foo/12345") = false.
Proof. split; vm_compute; reflexivity. Qed.

Lemma short_path_guard_witness :
  link_step literal_findall urlparse_simple deezer_netlocs auto_settings custom_parse_example
    ∅ "https://deezer.com/xyz" =
  Exited (String "009" EmptyString +:+ "Invalid URL: " +:+ dq +:+ "https://deezer.com/xyz" +:+ dq).
Proof.
  exact (short_path_guard literal_findall urlparse_simple deezer_netlocs auto_settings
           custom_parse_example ∅ "https://deezer.com/xyz" "deezer" eq_refl eq_refl
           ltac:(discriminate) ltac:(vm_compute; lia)).
Defined.

(** C4, as stated, fails: a module with manual URL decoding receives a link
    with a two-segment path and produces a MediaIdentification for it. *)
Lemma short_path_guard_counterexample :
  link_step literal_findall urlparse_simple deezer_netlocs manual_settings custom_parse_example
    ∅ "https://deezer.com/xyz" =
  Ok {[ "deezer" := [mkMediaIdentification track "https://deezer.com/xyz" None] ]} /\
  length (split_str "/" (path (urlparse_simple "https://deezer.com/xyz"))) = 2%nat.
Proof. split; vm_compute; reflexivity. Qed.

(** ** Request Aggregator *)

Lemma append_media_lookup (m m' : string) (x : MediaIdentification) (media : batch) :
  default [] (append_media m x media !! m') =
  default [] (media !! m') ++ (if bool_decide (m = m') then [x] else []).
Proof.
  unfold append_media. case_bool_decide as E.
  - subst m'. rewrite lookup_insert_eq. reflexivity.
  - rewrite lookup_insert_ne by exact E. rewrite app_nil_r. reflexivity.
Qed.

Section Aggregator.

Context {regex : Type}.
Variable re_findall : regex -> string -> list string.
Variable urlparse : string -> ParseResult.
Variable module_netloc_constants : list (regex * string).
Variable module_settings : string -> ModuleSettings.
Variable custom_url_parse : string -> string -> MediaIdentification.

(** What one link does to the batch does not depend on the batch: it
    raises, exits, or appends one identification to one module. *)
Lemma link_step_shape (link : string) :
  (exists e, forall media, link_step re_findall urlparse module_netloc_constants module_settings custom_url_parse media link = Raised e) \/
  (exists e, forall media, link_step re_findall urlparse module_netloc_constants module_settings custom_url_parse media link = Exited e) \/
  (exists m x, forall media, link_step re_findall urlparse module_netloc_constants module_settings custom_url_parse media link = Ok (append_media m x media)).
Proof.
  unfold link_step. cbv zeta.
  destruct (String.prefix "http" link); [|left; eauto].
  destruct (find_service re_findall module_netloc_constants _) as [m|]; [|left; eauto].
  destruct (String.eqb m EmptyString); [left; eauto|].
  unfold route_in_module. destruct (url_decoding (module_settings m)).
  - right; right. exists m, (custom_url_parse m link). intros media.
    rewrite append_media_ensure. reflexivity.
  - destruct (match split_str "/" (path (urlparse link)) with
              | [] => true | _ :: _ => _ end); [right; left; eauto|].
    destruct (last (map snd _)) as [t|]; [|right; left; eauto].
    right; right. eexists m, _. intros media. rewrite append_media_ensure. reflexivity.
Qed.

Lemma process_links_order (media B : batch) (links : list string) :
  process_links re_findall urlparse module_netloc_constants module_settings custom_url_parse
    media links = Ok B ->
  exists rs : list (string * MediaIdentification),
    Forall2 (fun link r => forall media', link_step re_findall urlparse module_netloc_constants module_settings
                 custom_url_parse media' link = Ok (append_media r.1 r.2 media'))
      links rs /\
    forall m, default [] (B !! m) =
              default [] (media !! m) ++ map snd (List.filter (fun r => bool_decide (r.1 = m)) rs).
Proof.
  revert media. induction links as [|link links IH]; intros media; simpl.
  - intros [= <-]. exists []. split; [constructor|]. intros m. simpl. rewrite app_nil_r. reflexivity.
  - destruct (link_step_shape link) as [[e He]|[[e He]|(m & x & He)]]; rewrite He;
      [discriminate|discriminate|].
    intros Hrest. destruct (IH _ Hrest) as (rs & Hrs & Hlook).
    exists ((m, x) :: rs). split; [constructor; assumption|].
    intros m'. rewrite Hlook, append_media_lookup, <- app_assoc. simpl.
    case_bool_decide; reflexivity.
Qed.

(** C7. Request Aggregator: when all links resolve, each module's sequence
    in the batch is exactly the identifications of the links routed to it,
    in input order (link k contributes [rs !! k]); and zero links give the
    empty batch, reported as "No links given" and still handed over, with
    no error raised. *)
Theorem batch_order :
  (forall (links : list string) (B : batch),
     process_links re_findall urlparse module_netloc_constants module_settings custom_url_parse
       ∅ links = Ok B ->
     exists rs : list (string * MediaIdentification),
       Forall2 (fun link r => forall media', link_step re_findall urlparse module_netloc_constants module_settings
                 custom_url_parse media' link = Ok (append_media r.1 r.2 media'))
         links rs /\
       forall m, default [] (B !! m) = map snd (List.filter (fun r => bool_decide (r.1 = m)) rs)) /\
  links_mode re_findall urlparse module_netloc_constants module_settings custom_url_parse [] =
    Ok (["No links given"], ∅).
Proof.
  split.
  - intros links B H. destruct (process_links_order ∅ B links H) as (rs & Hrs & Hlook).
    exists rs. split; [exact Hrs|]. intros m. rewrite Hlook, lookup_empty. reflexivity.
  - reflexivity.
Qed.

End Aggregator.

Lemma batch_order_witness :
  exists rs : list (string * MediaIdentification),
    length rs = 3%nat /\
    map snd (List.filter (fun r => bool_decide (r.1 = "deezer")) rs) =
    [mkMediaIdentification album "1" None; mkMediaIdentification track "2" None;
     mkMediaIdentification album "3" None].
Proof.
  assert (Hrun : process_links literal_findall urlparse_simple deezer_netlocs auto_settings
                   custom_parse_example ∅
                   ["https://deezer.com/album/1"; "https://deezer.com/track/2";
                    "https://www.deezer.com/album/3"] =
                 Ok {[ "deezer" := [mkMediaIdentification album "1" None;
                                    mkMediaIdentification track "2" None;
                                    mkMediaIdentification album "3" None] ]})
    by (vm_compute; reflexivity).
  destruct (proj1 (batch_order literal_findall urlparse_simple deezer_netlocs auto_settings
                     custom_parse_example) _ _ Hrun) as (rs & Hrs & Hlook).
  exists rs. split; [apply Forall2_length in Hrs; rewrite <- Hrs; reflexivity|].
  rewrite <- Hlook. vm_compute. reflexivity.
Defined.

(** * Further properties of the front end *)

(** ** Candidate Formatter: quality, duration and column layout *)

(** X1. The short quality code shown in a detailed row is at most six
    characters long, whatever the first [additional] string is. *)
Theorem short_qual_at_most_six (item : SearchResult) : (length (short_qual item) <= 6)%nat.
Proof.
  unfold short_qual.
  destruct (contains (lit "Dolby Atmos") _); [simpl; lia|].
  destruct (contains (lit "Master") _); [simpl; lia|].
  destruct (contains (lit "HiFi") _); [simpl; lia|].
  rewrite length_take. lia.
Qed.




Lemma trunc_name_length (item : SearchResult) : (length (trunc_name item) <= 38)%nat.
Proof.
  unfold trunc_name. destruct (38 <? length (name item))%nat eqn:E.
  - rewrite length_app, length_take. cbn [length]. lia.
  - apply Nat.ltb_ge in E. exact E.
Qed.

Lemma ljust_length (w : nat) (s : list N) : (length s <= w)%nat -> length (ljust w s) = w.
Proof. intros H. unfold ljust. rewrite length_app, length_replicate. lia. Qed.

(** X3. Column layout of the detailed table: for row numbers of at most
    three digits, every row has its 40-wide name column at offset 5 and
    its year at offset 46, whatever the name's length; the header has its
    label column at offset 4 and "YEAR" at offset 45, one column to the
    left of the rows. *)
Theorem detailed_columns (beauty_format_seconds : Z -> list N) (index : nat)
    (item : SearchResult) (query_type : DownloadTypeEnum) :
  (length (str_nat index) <= 3)%nat -> fst (configuration query_type) = detailed ->
  take 40 (drop 5 (visible beauty_format_seconds detailed index item)) = ljust 40 (trunc_name item) /\
  (exists rest, drop 46 (visible beauty_format_seconds detailed index item) = year_str item ++ rest) /\
  take 40 (drop 4 (header query_type)) = ljust 40 (lit (snd (configuration query_type))) /\
  (exists rest, drop 45 (header query_type) = lit "YEAR" ++ rest).
Proof.
  intros Hidx Hqt.
  assert (H4 : length (ljust 4 (str_nat index ++ lit ".")) = 4%nat).
  { apply ljust_length. rewrite length_app. simpl. lia. }
  assert (H40 : length (ljust 40 (trunc_name item)) = 40%nat).
  { apply ljust_length. pose proof (trunc_name_length item). lia. }
  unfold visible. split; [|split; [|split]].
  - rewrite app_assoc, drop_app_length' by (rewrite length_app, H4; reflexivity).
    apply take_app_length'. symmetry. exact H40.
  - eexists.
    do 4 (rewrite drop_app_ge by (rewrite ?H4, ?H40; cbn [length lit map list_ascii_of_string]; lia);
          rewrite ?H4, ?H40; cbn [length lit map list_ascii_of_string Nat.sub]).
    unfold ljust at 1. rewrite <- app_assoc. reflexivity.
  - destruct query_type; [| | discriminate |]; vm_compute; reflexivity.
  - destruct query_type; [| | discriminate |]; eexists; vm_compute; reflexivity.
Qed.

Lemma detailed_columns_witness :
  take 40 (drop 5 (visible beauty_format_seconds_spec detailed 12 long_name_item)) =
  ljust 40 (trunc_name long_name_item).
Proof.
  refine (proj1 (detailed_columns beauty_format_seconds_spec 12 long_name_item album _ _));
    [vm_compute; lia | reflexivity].
Defined.

Lemma build_choices_numbering (beauty_format_seconds : Z -> list N) (layout : layout_mode)
    (index : nat) (items : list SearchResult) (i : nat) (row : list N) :
  build_choices beauty_format_seconds layout index items !! i = Some row ->
  exists rest, row = str_nat (index + i) ++ lit "." ++ rest.
Proof.
  revert index i. induction items as [|item items IH]; intros index i; simpl; [discriminate|].
  destruct i as [|i]; simpl.
  - intros [= <-]. rewrite Nat.add_0_r. unfold choice, visible, ljust.
    destruct layout; eexists; rewrite <- !app_assoc; reflexivity.
  - intros H. destruct (IH _ _ H) as [rest ->]. exists rest. f_equal. f_equal. lia.
Qed.

(** X4. Row numbering: the row at 0-based position [i] of the candidate
    list starts with the number [i + 1] followed by a dot, in both
    layouts. *)
Theorem row_numbering (beauty_format_seconds : Z -> list N) (query_type : DownloadTypeEnum)
    (items : list SearchResult) (i : nat) (row : list N) :
  choices beauty_format_seconds query_type items !! i = Some row ->
  exists rest, row = str_nat (S i) ++ lit "." ++ rest.
Proof. apply build_choices_numbering. Qed.

Lemma row_numbering_witness :
  exists row rest, choices beauty_format_seconds_spec track example_items !! 1%nat = Some row /\
                   row = str_nat 2 ++ lit "." ++ rest.
Proof.
  assert (H : is_Some (choices beauty_format_seconds_spec track example_items !! 1%nat))
    by (vm_compute; eauto).
  destruct H as [row Hrow]. exists row.
  destruct (row_numbering _ _ _ _ _ Hrow) as [rest Hr]. exists rest. split; [exact Hrow|exact Hr].
Defined.

(** ** Selection Backend Adapter *)

Lemma append_string_of_list (l : list ascii) (c : ascii) (l' : list ascii) :
  string_of_list_ascii (l ++ c :: l') =
  (string_of_list_ascii l +:+ String c (string_of_list_ascii l'))%string.
Proof. induction l as [|x l IH]; simpl; [reflexivity|]. rewrite IH. reflexivity. Qed.

Lemma list_of_append_string (s t : string) :
  list_ascii_of_string (s +:+ t)%string = list_ascii_of_string s ++ list_ascii_of_string t.
Proof. induction s as [|x s IH]; simpl; [reflexivity|]. rewrite IH. reflexivity. Qed.

Lemma lstrip_app_dot (X Y : string) :
  exists X', lstrip (X +:+ String "." Y)%string = (X' +:+ String "." Y)%string.
Proof.
  induction X as [|c X IH]; simpl.
  - exists EmptyString. reflexivity.
  - destruct (is_space c); [exact IH|]. exists (String c X). reflexivity.
Qed.

Lemma is_space_digit (c : ascii) : Py.is_digit_char c = true -> is_space c = false.
Proof.
  unfold Py.is_digit_char, is_space. intros [H1 H2]%andb_prop.
  apply Nat.leb_le in H1, H2.
  destruct ((9 <=? nat_of_ascii c) && (nat_of_ascii c <=? 13))%nat eqn:E.
  - apply andb_prop in E as [_ E]. apply Nat.leb_le in E. lia.
  - simpl. apply Nat.eqb_neq. lia.
Qed.

(** [strip] keeps a leading run of digits and the dot after it. *)
Lemma strip_digits_dot (A B : string) :
  Py.all_digits A = true ->
  exists B', strip (A +:+ String "." B)%string = (A +:+ String "." B')%string.
Proof.
  intros HA. unfold strip.
  assert (H0 : lstrip (A +:+ String "." B)%string = (A +:+ String "." B)%string).
  { destruct A as [|d A]; [reflexivity|]. simpl in HA |- *.
    apply andb_prop in HA as [Hd _]. rewrite (is_space_digit d Hd). reflexivity. }
  rewrite H0, list_of_append_string. simpl.
  rewrite rev_app_distr. simpl. rewrite <- app_assoc. simpl.
  rewrite append_string_of_list.
  destruct (lstrip_app_dot (string_of_list_ascii (rev (list_ascii_of_string B)))
              (string_of_list_ascii (rev (list_ascii_of_string A)))) as [X' ->].
  rewrite list_of_append_string. simpl.
  rewrite !list_ascii_of_string_of_list_ascii, rev_app_distr. simpl.
  rewrite rev_involutive, <- app_assoc. simpl.
  rewrite append_string_of_list, string_of_list_ascii_of_string.
  eexists. reflexivity.
Qed.

Lemma before_dot_digits (A B : string) :
  Py.all_digits A = true -> before_dot (A +:+ String "." B)%string = A.
Proof.
  induction A as [|c A IH]; simpl; [reflexivity|].
  intros [Hc HA]%andb_prop. rewrite (IH HA).
  destruct (Ascii.eqb c ".") eqn:E; [|reflexivity].
  apply Ascii.eqb_eq in E. subst c. discriminate.
Qed.

Lemma str_nat_not_empty (k : nat) : (1 <= k)%nat -> Py.str_nat k <> EmptyString.
Proof.
  intros Hk E. pose proof (isdigit_str_nat k Hk) as H. rewrite E in H. discriminate.
Qed.

Lemma process_result_str_nat (k n : nat) :
  (1 <= k <= n)%nat -> process_result (Py.str_nat k) n = Ok (Z.of_nat k - 1).
Proof.
  intros Hk. unfold process_result.
  rewrite not_quit_all_digits by apply all_digits_string_of_uint.
  rewrite isdigit_str_nat by lia. simpl. rewrite int_str_nat.
  destruct (Z.of_nat k - 1 <? 0) eqn:E1; [apply Z.ltb_lt in E1; lia|].
  destruct (Z.of_nat k - 1 >=? Z.of_nat n) eqn:E2; [apply Z.geb_le in E2; lia|].
  reflexivity.
Qed.

Lemma fzf_selection_row (term : terminal) (hdr : list N) (rows : list (list N)) (k : nat)
    (rest : string) :
  (1 <= k)%nat ->
  fzf_communicate term hdr rows = Some (0, (Py.str_nat k +:+ String "." rest)%string) ->
  fzf_selection term hdr rows = Some (Py.str_nat k).
Proof.
  intros Hk Hc. unfold fzf_selection. rewrite Hc.
  assert (Hd : Py.all_digits (Py.str_nat k) = true) by apply all_digits_string_of_uint.
  destruct (strip_digits_dot _ rest Hd) as [B' HB].
  replace (String.eqb (Py.str_nat k +:+ String "." rest) "") with false
    by (destruct (Py.str_nat k); reflexivity).
  rewrite HB. replace (String.eqb (Py.str_nat k +:+ String "." B') "") with false
    by (destruct (Py.str_nat k); reflexivity).
  simpl. rewrite before_dot_digits by exact Hd. reflexivity.
Qed.

Lemma interactive_fzf_row (beauty_format_seconds : Z -> list N) (term : terminal)
    (items : list SearchResult) (query_type : DownloadTypeEnum) (k : nat) (rest : string) :
  fzf_found term = true ->
  fzf_communicate term (header query_type) (choices beauty_format_seconds query_type items) =
    Some (0, (Py.str_nat k +:+ String "." rest)%string) ->
  (1 <= k <= length items)%nat ->
  interactive_selection beauty_format_seconds term items query_type =
    ([EvFzf], Ok (Z.of_nat k - 1)).
Proof.
  intros Hf Hc Hk. unfold interactive_selection. rewrite Hf.
  rewrite (fzf_selection_row _ _ _ k rest) by (lia || exact Hc).
  destruct (String.eqb (Py.str_nat k) "") eqn:E;
    [apply String.eqb_eq in E; exfalso; exact (str_nat_not_empty k ltac:(lia) E)|].
  rewrite process_result_str_nat by lia. reflexivity.
Qed.

(** X5. Picking a row in fzf: when fzf exits with status 0 and prints a
    line starting with the number [k] and a dot (as row [k] does), with
    [1 <= k <= len(items)], the selection is the index [k - 1] and the
    fallback prompt is not shown. *)
Theorem fzf_pick (beauty_format_seconds : Z -> list N) (term : terminal)
    (items : list SearchResult) (query_type : DownloadTypeEnum) (k : nat) (rest : string) :
  fzf_found term = true ->
  fzf_communicate term (header query_type) (choices beauty_format_seconds query_type items) =
    Some (0, (Py.str_nat k +:+ String "." rest)%string) ->
  (1 <= k <= length items)%nat ->
  interactive_selection beauty_format_seconds term items query_type =
    ([EvFzf], Ok (Z.of_nat k - 1)).
Proof. apply interactive_fzf_row. Qed.

Lemma fzf_pick_witness :
  interactive_selection beauty_format_seconds_spec (fzf_terminal "2. Song") example_items track =
    ([EvFzf], Ok 1).
Proof. apply (fzf_pick _ _ _ _ 2 " Song"); [reflexivity | reflexivity | simpl; lia]. Defined.



(** ** Search modes *)

(** X7. In an interactive search, picking row [k] in fzf puts exactly one
    identification in the batch: the type searched for, with the id and
    extra arguments of result [k], under the module searched. *)
Theorem search_pick (beauty_format_seconds : Z -> list N) (search_limit : nat)
    (module_search : DownloadTypeEnum -> string -> nat -> list SearchResult)
    (term : terminal) (modulename query : string) (query_type : DownloadTypeEnum)
    (k : nat) (rest : string) :
  let items := module_search query_type query search_limit in
  fzf_found term = true ->
  fzf_communicate term (header query_type) (choices beauty_format_seconds query_type items) =
    Some (0, (Py.str_nat k +:+ String "." rest)%string) ->
  (1 <= k <= length items)%nat ->
  exists item, items !! (k - 1)%nat = Some item /\
    search_mode beauty_format_seconds search_limit module_search term false modulename query query_type =
      ([EvSearch query_type query search_limit; EvFzf],
       Ok {[ modulename := [mkMediaIdentification query_type (result_id item)
                              (Some (extra_kwargs item))] ]}).
Proof.
  intros items Hf Hc Hk.
  destruct (lookup_lt_is_Some_2 items (k - 1)%nat) as [item Hitem]; [lia|].
  exists item. split; [exact Hitem|].
  unfold search_mode. simpl. fold items.
  destruct (length items =? 0)%nat eqn:E; [apply Nat.eqb_eq in E; lia|].
  rewrite (interactive_fzf_row _ _ _ _ k rest Hf Hc Hk). simpl.
  unfold py_index. destruct (Z.of_nat k - 1 <? 0) eqn:E1; [apply Z.ltb_lt in E1; lia|].
  replace (Z.to_nat (Z.of_nat k - 1)) with (k - 1)%nat by lia. rewrite Hitem. reflexivity.
Qed.

Lemma search_pick_witness :
  exists item, example_items !! 1%nat = Some item /\
    search_mode beauty_format_seconds_spec 10 (fun _ _ _ => example_items) (fzf_terminal "2. X")
      false "deezer" "x" album =
    ([EvSearch album "x" 10; EvFzf],
     Ok {[ "deezer" := [mkMediaIdentification album (result_id item) (Some (extra_kwargs item))] ]}).
Proof.
  exact (search_pick beauty_format_seconds_spec 10 (fun _ _ _ => example_items) (fzf_terminal "2. X")
           "deezer" "x" album 2 " X" eq_refl eq_refl ltac:(simpl; lia)).
Defined.

(** X8. Typing a quit alias at the fallback prompt of an interactive
    search ends the run through [exit()]: no error, nothing in a batch. *)
Theorem search_quit (beauty_format_seconds : Z -> list N) (search_limit : nat)
    (module_search : DownloadTypeEnum -> string -> nat -> list SearchResult)
    (term : terminal) (modulename query : string) (query_type : DownloadTypeEnum) :
  module_search query_type query search_limit <> [] ->
  fzf_found term = false -> is_quit (input_line term) = true ->
  search_mode beauty_format_seconds search_limit module_search term false modulename query query_type =
    ([EvSearch query_type query search_limit; EvPrompt], Exited "").
Proof.
  intros Hne Hf Hq. unfold search_mode. simpl.
  destruct (length (module_search query_type query search_limit) =? 0)%nat eqn:E;
    [apply Nat.eqb_eq, nil_length_inv in E; contradiction|].
  unfold interactive_selection. rewrite Hf. simpl.
  unfold process_result. rewrite Hq. reflexivity.
Qed.

Lemma search_quit_witness :
  search_mode beauty_format_seconds_spec 10 (fun _ _ _ => example_items) (prompt_terminal "Exit")
    false "deezer" "x" track =
  ([EvSearch track "x" 10; EvPrompt], Exited "").
Proof. apply search_quit; [discriminate | reflexivity | reflexivity]. Defined.

(** ** Command dispatch of [main] *)

Lemma parse_type_name (t : DownloadTypeEnum) : parse_type (type_name t) = Some t.
Proof. destruct t; reflexivity. Qed.

Lemma process_links_app {regex : Type} (re_findall : regex -> string -> list string)
    (urlparse : string -> ParseResult) (module_netloc_constants : list (regex * string))
    (module_settings : string -> ModuleSettings)
    (custom_url_parse : string -> string -> MediaIdentification)
    (media : batch) (l1 l2 : list string) :
  process_links re_findall urlparse module_netloc_constants module_settings custom_url_parse
    media (l1 ++ l2) =
  match process_links re_findall urlparse module_netloc_constants module_settings custom_url_parse
          media l1 with
  | Ok media' => process_links re_findall urlparse module_netloc_constants module_settings
                   custom_url_parse media' l2
  | Raised m => Raised m
  | Exited m => Exited m
  end.
Proof.
  revert media. induction l1 as [|link l1 IH]; intros media; simpl; [reflexivity|].
  destruct (link_step _ _ _ _ _ media link); [apply IH|reflexivity|reflexivity].
Qed.


Lemma process_links_non_empty {regex : Type} (re_findall : regex -> string -> list string)
    (urlparse : string -> ParseResult) (module_netloc_constants : list (regex * string))
    (module_settings : string -> ModuleSettings)
    (custom_url_parse : string -> string -> MediaIdentification)
    (media B : batch) (links : list string) :
  process_links re_findall urlparse module_netloc_constants module_settings custom_url_parse
    media links = Ok B ->
  media ≠ ∅ \/ links ≠ [] -> B ≠ ∅.
Proof.
  revert media. induction links as [|link links IH]; intros media; simpl.
  - intros [= ->] [H|H]; [exact H|congruence].
  - destruct (link_step_shape re_findall urlparse module_netloc_constants module_settings
                custom_url_parse link) as [[e He]|[[e He]|(m & x & He)]]; rewrite He;
      [discriminate|discriminate|].
    intros Hrest _. apply (IH _ Hrest). left. apply insert_non_empty.
Qed.

Lemma handoff_singleton (m : string) (l : list MediaIdentification) :
  handoff {[ m := l ]} = ([], {[ m := l ]}).
Proof.
  unfold handoff. rewrite bool_decide_false; [reflexivity|].
  apply insert_non_empty.
Qed.

Lemma not_keyword (w : string) :
  w ∉ mode_keywords ->
  String.eqb w "settings" = false /\ String.eqb w "sessions" = false /\
  String.eqb w "search" = false /\ String.eqb w "luckysearch" = false /\
  String.eqb w "download" = false.
Proof.
  intros Hw. unfold mode_keywords in Hw.
  repeat split; apply String.eqb_neq; intros ->; apply Hw; set_solver.
Qed.

(** X10. The run's output path: a single trailing "/" is removed from the
    chosen path (the [-o] option when given and non-empty, else the
    configured download path), any other path is kept as it is, and an
    empty chosen path raises an [IndexError] in every mode but settings
    and sessions, before anything else happens. *)
Theorem output_path_trailing_slash {regex : Type} (beauty_format_seconds : Z -> list N)
    (re_findall : regex -> string -> list string)
    (urlparse : string -> ParseResult) (module_netloc_constants : list (regex * string))
    (module_settings : string -> ModuleSettings)
    (custom_url_parse : string -> string -> MediaIdentification)
    (o : Orpheus) (term : terminal) (args : cli_args) :
  let chosen := match output args with
                | Some out => if String.eqb out "" then download_path o else out
                | None => download_path o
                end in
  (forall s, chosen = (s +:+ "/")%string -> output_path o args = Some s) /\
  (forall s c, chosen = (s +:+ String c EmptyString)%string -> c <> "/"%char ->
     output_path o args = Some chosen) /\
  (chosen = EmptyString -> output_path o args = None) /\
  (chosen = EmptyString -> forall a0 rest, arguments args = a0 :: rest ->
     Py.lower a0 <> "settings" -> Py.lower a0 <> "sessions" ->
     main beauty_format_seconds re_findall urlparse module_netloc_constants module_settings
       custom_url_parse o term args = ([], Raised "string index out of range")).
Proof.
  intros chosen.
  assert (Hout : output_path o args =
            match rev (list_ascii_of_string chosen) with
            | [] => None
            | c :: r => if Ascii.eqb c "/" then Some (string_of_list_ascii (rev r)) else Some chosen
            end) by reflexivity.
  assert (Hnone : chosen = EmptyString -> output_path o args = None)
    by (intros E; rewrite Hout, E; reflexivity).
  split; [|split; [|split; [exact Hnone|]]].
  - intros s E. rewrite Hout, E, list_of_append_string, rev_app_distr. simpl.
    rewrite rev_involutive, string_of_list_ascii_of_string. reflexivity.
  - intros s c E Hc. rewrite Hout. rewrite E at 1.
    rewrite list_of_append_string, rev_app_distr. simpl.
    apply Ascii.eqb_neq in Hc. rewrite Hc. reflexivity.
  - intros E a0 rest Ha Hs1 Hs2. unfold main. rewrite Ha. cbv zeta.
    apply String.eqb_neq in Hs1, Hs2. rewrite Hs1, Hs2, (Hnone E). reflexivity.
Qed.


Section MainProofs.

Variable beauty_format_seconds : Z -> list N.
Context {regex : Type}.
Variable re_findall : regex -> string -> list string.
Variable urlparse : string -> ParseResult.
Variable module_netloc_constants : list (regex * string).
Variable module_settings : string -> ModuleSettings.
Variable custom_url_parse : string -> string -> MediaIdentification.

Local Abbreviation main' :=
  (main beauty_format_seconds re_findall urlparse module_netloc_constants module_settings
     custom_url_parse).
Local Abbreviation process_links' :=
  (process_links re_findall urlparse module_netloc_constants module_settings custom_url_parse).


(** X13. The mode word is read case-insensitively: two words with the
    same lowercase form, one of settings, sessions, search, luckysearch,
    download, give the same run. *)
Theorem mode_case_insensitive (o : Orpheus) (term : terminal) (pr : bool)
    (out : option string) (lr cv cr sd w w' : string) (rest : list string) :
  Py.lower w = Py.lower w' -> Py.lower w ∈ mode_keywords ->
  main' o term (mkArgs pr out lr cv cr sd (w :: rest)) =
  main' o term (mkArgs pr out lr cv cr sd (w' :: rest)).
Proof.
  intros Hl Hk. unfold main. cbn [arguments]. rewrite <- Hl.
  unfold output_path. cbn [output].
  unfold mode_keywords in Hk.
  repeat rewrite elem_of_cons in Hk. rewrite elem_of_nil in Hk.
  destruct Hk as [E|[E|[E|[E|[E|[]]]]]]; rewrite E; cbn -[search_branch download_branch];
    try reflexivity;
    repeat match goal with |- context [match ?x with _ => _ end] => destruct x end;
    unfold search_branch, download_branch; cbn [length];
    destruct rest as [|a1 [|a2 r]]; reflexivity.
Qed.

(** X14. Download mode: with at least one media id after a known module
    and a valid type, the batch handed over maps the lowercased module
    name to one identification per id, in the order given, with the ids
    taken verbatim (not lowercased); "No links given" is not printed. *)
Theorem download_request (o : Orpheus) (term : terminal) (args : cli_args)
    (a0 m t : string) (ids : list string) (media_type : DownloadTypeEnum) (p : string) :
  arguments args = a0 :: m :: t :: ids -> ids <> [] ->
  Py.lower a0 = "download" -> Py.lower m ∈ module_list o ->
  Py.lower t = type_name media_type -> output_path o args = Some p ->
  main' o term args =
    ([EvMakedirs p],
     Ok (Handoff {[ Py.lower m := map (fun i => mkMediaIdentification media_type i None) ids ]}
           (tpm o args) (Py.lower (separatedownload args)) p)).
Proof.
  intros Ha Hids Hmode Hm Ht Hp. destruct ids as [|i ids]; [contradiction|].
  unfold main. rewrite Ha, Hmode, Hp. cbn -[download_branch handoff].
  unfold download_branch. cbn [length Nat.ltb Nat.leb].
  rewrite bool_decide_true by exact Hm. rewrite Ht, parse_type_name.
  rewrite handoff_singleton. reflexivity.
Qed.


(** X16. An unknown module name in search, luckysearch or download raises
    "Unknown module name ...", listing the modules that are not hidden,
    before any module is loaded; in download mode this includes "multi". *)
Theorem unknown_module_raises (o : Orpheus) (term : terminal) (args : cli_args)
    (a0 m t q : string) (rest : list string) (p : string) :
  arguments args = a0 :: m :: t :: q :: rest ->
  Py.lower a0 ∈ ["search"; "luckysearch"; "download"] ->
  Py.lower m ∉ module_list o ->
  (Py.lower m <> "multi" \/ Py.lower a0 = "download") ->
  output_path o args = Some p ->
  main' o term args = ([EvMakedirs p], Raised (unknown_module o (Py.lower m))).
Proof.
  intros Ha Hmode Hm Hmulti Hp.
  unfold main. rewrite Ha. cbv zeta. rewrite Hp.
  repeat rewrite elem_of_cons in Hmode. rewrite elem_of_nil in Hmode.
  destruct Hmode as [E|[E|[E|[]]]]; rewrite E; cbn -[search_branch download_branch];
    unfold search_branch, download_branch; cbn [length Nat.ltb Nat.leb];
    rewrite bool_decide_false by exact Hm; cbn -[unknown_module];
    try reflexivity;
    (destruct Hmulti as [Hmulti|Hmulti]; [|rewrite E in Hmulti; discriminate]);
    apply String.eqb_neq in Hmulti; rewrite Hmulti; reflexivity.
Qed.

(** X17. Searching the pseudo-module "multi" (when no module has that
    name) returns from [main] without searching and without handing
    anything over. *)
Theorem search_multi_returns (o : Orpheus) (term : terminal) (args : cli_args)
    (a0 m t q : string) (rest : list string) (p : string) :
  arguments args = a0 :: m :: t :: q :: rest ->
  (Py.lower a0 = "search" \/ Py.lower a0 = "luckysearch") ->
  Py.lower m = "multi" -> "multi" ∉ module_list o ->
  output_path o args = Some p ->
  main' o term args = ([EvMakedirs p], Ok Returned).
Proof.
  intros Ha Hmode Hm Hnot Hp. unfold main. rewrite Ha. cbv zeta.
  destruct Hmode as [E|E]; rewrite E, Hp; cbn -[search_branch];
    unfold search_branch; cbn [length Nat.ltb Nat.leb];
    rewrite Hm, bool_decide_false by exact Hnot; reflexivity.
Qed.

(** X18. settings and sessions never create the output directory and
    never hand a batch over: they return or raise, and their only effects
    are printing and loading a module; without an option they raise an
    [IndexError]. *)
Theorem settings_sessions_no_download (o : Orpheus) (term : terminal) (args : cli_args)
    (a0 : string) (rest : list string) :
  arguments args = a0 :: rest ->
  Py.lower a0 = "settings" \/ Py.lower a0 = "sessions" ->
  (rest = [] -> main' o term args = ([], Raised index_error)) /\
  (snd (main' o term args) = Ok Returned \/ exists e, snd (main' o term args) = Raised e) /\
  Forall (fun ev => match ev with EvPrint _ | EvLoad _ => True | _ => False end)
    (fst (main' o term args)).
Proof.
  intros Ha Hmode. unfold main. rewrite Ha. cbv zeta.
  destruct Hmode as [E|E]; rewrite E; cbn -[settings_mode sessions_mode];
    (split; [intros ->; reflexivity|]);
    [unfold settings_mode | unfold sessions_mode];
    repeat case_match; simpl; eauto.
Qed.

(** X19. In links mode, an argument that does not start with "http"
    makes the run raise "Invalid argument: ..." when every link before it
    resolved: nothing is handed over and no later link is read. *)
Theorem invalid_argument_aborts (o : Orpheus) (term : terminal) (args : cli_args)
    (l1 : list string) (bad : string) (l2 : list string) (media : batch) (p : string) :
  arguments args = l1 ++ bad :: l2 ->
  Py.lower (hd bad l1) ∉ mode_keywords ->
  (l1 = [] -> l2 = [] -> path_exists o bad = false) ->
  process_links' ∅ l1 = Ok media ->
  String.prefix "http" bad = false ->
  output_path o args = Some p ->
  main' o term args = ([EvMakedirs p], Raised ("Invalid argument: " +:+ dq +:+ bad +:+ dq)).
Proof.
  intros Ha Hk Hfile Hl1 Hbad Hp.
  destruct (not_keyword _ Hk) as (K1 & K2 & K3 & K4 & K5).
  assert (Hlinks : links_branch re_findall urlparse module_netloc_constants module_settings
                     custom_url_parse o (l1 ++ bad :: l2) =
                   ([], Raised ("Invalid argument: " +:+ dq +:+ bad +:+ dq))).
  { unfold links_branch.
    assert (Hsel : match l1 ++ bad :: l2 with
                   | [a0] => if path_exists o a0 then read_lines o a0 else l1 ++ bad :: l2
                   | _ => l1 ++ bad :: l2
                   end = l1 ++ bad :: l2).
    { destruct l1 as [|x [|y l1]]; [destruct l2|..]; simpl; try reflexivity.
      rewrite (Hfile eq_refl eq_refl). reflexivity. }
    rewrite Hsel, process_links_app, Hl1. simpl. unfold link_step. rewrite Hbad. reflexivity. }
  unfold main. rewrite Ha.
  destruct l1 as [|x l1]; cbn -[links_branch] in Hk, K1, K2, K3, K4, K5, Hlinks |- *;
    rewrite K1, K2, Hp, K3, K4, K5; cbn -[links_branch]; rewrite Hlinks; reflexivity.
Qed.

Lemma search_mode_non_empty (search_limit : nat)
    (module_search : DownloadTypeEnum -> string -> nat -> list SearchResult)
    (term : terminal) (lucky_mode : bool) (modulename query : string)
    (query_type : DownloadTypeEnum) (b : batch) :
  snd (search_mode beauty_format_seconds search_limit module_search term lucky_mode
         modulename query query_type) = Ok b -> b ≠ ∅.
Proof.
  unfold search_mode. cbv zeta. destruct (length _ =? 0)%nat; [discriminate|].
  destruct lucky_mode;
    [|destruct (interactive_selection _ _ _ _) as [ev_sel sel]]; simpl;
    repeat case_match; try discriminate; intros [= <-]; apply map_non_empty_singleton.
Qed.

Lemma search_branch_shape (o : Orpheus) (term : terminal) (lucky_mode : bool)
    (l : list string) :
  (forall s, EvPrint s ∈ fst (search_branch beauty_format_seconds o term lucky_mode l) -> s = EmptyString) /\
  (forall b, snd (search_branch beauty_format_seconds o term lucky_mode l) = Ok (Some b) -> b ≠ ∅).
Proof.
  unfold search_branch. case_match; [|split; [intros s Hs; apply elem_of_nil in Hs as []|discriminate]].
  destruct l as [|a0 [|a1 [|a2 rest]]];
    try (split; [intros s Hs; apply elem_of_nil in Hs as []|discriminate]).
  case_match; [|case_match; (split; [intros s Hs; apply elem_of_nil in Hs as []|discriminate])].
  case_match; [|split; [intros s Hs; apply elem_of_nil in Hs as []|discriminate]].
  destruct (search_mode _ _ _ _ _ _ _ _) as [ev res] eqn:Es. simpl. split.
  - intros s Hs. apply elem_of_cons in Hs as [Hs|Hs]; [discriminate|].
    apply elem_of_app in Hs as [Hs|Hs].
    + apply list_elem_of_In, in_map_iff in Hs as (? & ? & _). discriminate.
    + destruct res; [destruct lucky_mode|..]; simpl in Hs;
        try (apply elem_of_nil in Hs as []).
      apply list_elem_of_singleton in Hs. congruence.
  - intros b Hb. destruct res as [b'|m|m]; [|discriminate|discriminate].
    injection Hb as <-. apply (search_mode_non_empty _ _ _ _ _ _ _ _ (f_equal snd Es)).
Qed.

Lemma download_branch_shape (o : Orpheus) (l : list string) :
  fst (download_branch o l) = [] /\
  (forall b, snd (download_branch o l) = Ok (Some b) -> b ≠ ∅).
Proof.
  unfold download_branch. repeat case_match; split; try reflexivity; try discriminate.
  intros b [= <-]. apply map_non_empty_singleton.
Qed.

Lemma links_branch_shape (o : Orpheus) (l : list string) :
  fst (links_branch re_findall urlparse module_netloc_constants module_settings
         custom_url_parse o l) = [] /\
  (l <> [] -> snd (links_branch re_findall urlparse module_netloc_constants module_settings
                     custom_url_parse o l) = Ok (Some ∅) ->
   exists f, l = [f] /\ path_exists o f = true /\ read_lines o f = []).
Proof.
  unfold links_branch. split; [reflexivity|]. intros Hl. simpl.
  set (links := match l with
                | [a0] => if path_exists o a0 then read_lines o a0 else l
                | _ => l
                end).
  destruct (process_links' ∅ links) as [B|m|m] eqn:Hp; [|discriminate|discriminate].
  intros [= ->].
  assert (Hnil : links = []).
  { destruct links as [|x links]; [reflexivity|].
    exfalso. apply (process_links_non_empty _ _ _ _ _ _ _ _ Hp); [right; discriminate|reflexivity]. }
  subst links. destruct l as [|f [|y l]]; [congruence| |discriminate].
  exists f. destruct (path_exists o f) eqn:Ef; [|discriminate]. auto.
Qed.

(** X20. [main] prints "No links given" only when its single argument is
    an existing file with no lines: every other way to reach the hand-over
    (search, download, links on the command line) puts at least one
    identification in the batch. *)
Theorem no_links_given_only_empty_file (o : Orpheus) (term : terminal) (args : cli_args) :
  EvPrint "No links given" ∈ fst (main' o term args) ->
  exists f, arguments args = [f] /\ path_exists o f = true /\ read_lines o f = [].
Proof.
  unfold main. destruct (arguments args) as [|a0 rest] eqn:Ha.
  { simpl. intros Hin. apply list_elem_of_singleton in Hin. discriminate. }
  cbv zeta.
  destruct (String.eqb (Py.lower a0) "settings").
  { unfold settings_mode. intros Hin. exfalso.
    repeat case_match; simpl in Hin;
      repeat match type of Hin with
             | _ ∈ [] => apply elem_of_nil in Hin as []
             | _ ∈ [_] => apply list_elem_of_singleton in Hin
             end; discriminate. }
  destruct (String.eqb (Py.lower a0) "sessions").
  { unfold sessions_mode. intros Hin. exfalso.
    repeat case_match; simpl in Hin; apply elem_of_nil in Hin as []. }
  destruct (output_path o args) as [p|].
  2: { intros Hin. apply elem_of_nil in Hin as []. }
  match goal with |- _ ∈ fst (match ?X with (_, _) => _ end) -> _ => set (br := X) end.
  assert (Hshape : (forall s, EvPrint s ∈ fst br -> s = EmptyString) /\
                   (forall b, snd br = Ok (Some b) -> b ≠ ∅ \/
                      exists f, a0 :: rest = [f] /\ path_exists o f = true /\ read_lines o f = [])).
  { subst br. destruct (_ || _).
    - destruct (search_branch_shape o term (String.eqb (Py.lower a0) "luckysearch") (a0 :: rest))
        as [H1 H2]. split; [exact H1|]. intros b Hb. left. exact (H2 b Hb).
    - destruct (String.eqb _ "download").
      + destruct (download_branch_shape o (a0 :: rest)) as [H1 H2].
        split; [rewrite H1; intros s Hs; apply elem_of_nil in Hs as []|].
        intros b Hb. left. exact (H2 b Hb).
      + destruct (links_branch_shape o (a0 :: rest)) as [H1 H2].
        split; [rewrite H1; intros s Hs; apply elem_of_nil in Hs as []|].
        intros b Hb. destruct (decide (b = ∅)) as [->|Hne]; [right|left; exact Hne].
        apply H2; [discriminate|exact Hb]. }
  clearbody br. destruct br as [ev res]. destruct Hshape as [Hev Hres]. simpl in Hev, Hres.
  destruct res as [[b|]|m|m]; simpl; intros Hin;
    try (apply elem_of_cons in Hin as [Hin|Hin]; [discriminate|];
         specialize (Hev _ Hin); discriminate).
  destruct (Hres b eq_refl) as [Hne|Hfile]; [|exact Hfile].
  unfold handoff in Hin. rewrite bool_decide_false in Hin by exact Hne. simpl in Hin.
  rewrite app_nil_r in Hin. apply elem_of_cons in Hin as [Hin|Hin]; [discriminate|].
  specialize (Hev _ Hin). discriminate.
Qed.

End MainProofs.

Abbreviation example_main :=
  (main beauty_format_seconds_spec literal_findall urlparse_simple deezer_netlocs auto_settings
     custom_parse_example example_orpheus).


Lemma mode_case_insensitive_witness :
  example_main (prompt_terminal "1") (example_args ["LuckySearch"; "deezer"; "track"; "x"]) =
  example_main (prompt_terminal "1") (example_args ["luckysearch"; "deezer"; "track"; "x"]).
Proof.
  apply mode_case_insensitive; [reflexivity|].
  apply (bool_decide_unpack _). vm_compute. exact I.
Defined.

Lemma download_request_witness :
  example_main (prompt_terminal "1") (example_args ["Download"; "Deezer"; "ALBUM"; "AbC"; "dEf"]) =
    ([EvMakedirs "Downloads"],
     Ok (Handoff {[ "deezer" := [mkMediaIdentification album "AbC" None;
                                 mkMediaIdentification album "dEf" None] ]}
           [(covers, None); (lyrics, None); (credits, None)] "default" "Downloads")).
Proof.
  apply (download_request beauty_format_seconds_spec literal_findall urlparse_simple
           deezer_netlocs auto_settings custom_parse_example example_orpheus (prompt_terminal "1")
           (example_args ["Download"; "Deezer"; "ALBUM"; "AbC"; "dEf"])
           "Download" "Deezer" "ALBUM" ["AbC"; "dEf"] album "Downloads");
    [reflexivity | discriminate | reflexivity | | reflexivity | reflexivity].
  apply (bool_decide_unpack _). vm_compute. exact I.
Defined.


Lemma unknown_module_raises_witness :
  example_main (prompt_terminal "1") (example_args ["download"; "Tidal"; "track"; "1"]) =
    ([EvMakedirs "Downloads"], Raised (unknown_module example_orpheus "tidal")).
Proof.
  apply (unknown_module_raises _ _ _ _ _ _ _ _ _ "download" "Tidal" "track" "1" []);
    [reflexivity | | | left; discriminate | reflexivity].
  - apply (bool_decide_unpack _). vm_compute. exact I.
  - apply (bool_decide_unpack _). vm_compute. exact I.
Defined.

Lemma search_multi_returns_witness :
  example_main (prompt_terminal "1") (example_args ["search"; "Multi"; "track"; "x"]) =
    ([EvMakedirs "Downloads"], Ok Returned).
Proof.
  apply (search_multi_returns _ _ _ _ _ _ _ _ _ "search" "Multi" "track" "x" []);
    [reflexivity | left; reflexivity | reflexivity | | reflexivity].
  apply (bool_decide_unpack _). vm_compute. exact I.
Defined.

Lemma settings_sessions_no_download_witness :
  example_main (prompt_terminal "1") (example_args ["Settings"]) = ([], Raised index_error).
Proof.
  exact (proj1 (settings_sessions_no_download _ _ _ _ _ _ _ _ (example_args ["Settings"])
                  "Settings" [] eq_refl (or_introl eq_refl)) eq_refl).
Defined.

Lemma invalid_argument_aborts_witness :
  example_main (prompt_terminal "1") (example_args ["https://deezer.com/track/1"; "deezer.com/track/2"]) =
    ([EvMakedirs "Downloads"], Raised ("Invalid argument: " +:+ dq +:+ "deezer.com/track/2" +:+ dq)).
Proof.
  apply (invalid_argument_aborts _ _ _ _ _ _ _ _ _ ["https://deezer.com/track/1"]
           "deezer.com/track/2" [] {[ "deezer" := [mkMediaIdentification track "1" None] ]});
    [reflexivity | | discriminate | vm_compute; reflexivity | reflexivity | reflexivity].
  apply (bool_decide_unpack _). vm_compute. exact I.
Defined.

Lemma no_links_given_only_empty_file_witness :
  exists f, arguments (example_args ["links.txt"]) = [f] /\ path_exists example_orpheus f = true /\
            read_lines example_orpheus f = [].
Proof.
  apply (no_links_given_only_empty_file beauty_format_seconds_spec literal_findall urlparse_simple
           deezer_netlocs auto_settings custom_parse_example example_orpheus (prompt_terminal "1")).
  apply list_elem_of_In. vm_compute. auto.
Defined.
